(** * Requirements-gathering MCP server: session state machine

    A shallow embedding of [dist/index.js], the compiled MCP server of the
    requirements builder, and the properties of its session workflow.

    The repository ships two builds of the server in that file:
    - the first one (lines 1-476) has read-only status reporting and no
      settings; it is embedded in [Module FirstBuild];
    - the second one (lines 477-1237) adds the settings store, asks the
      discovery and expert questions from [requirements-status] and moves
      the session through its phases; it is the top-level development.

    Modelling decisions:
    - the [requirements/] directory is a record [Store] of its files; the
      session folders are a finite map from folder name to [Folder];
    - JSON files are kept as the records they serialise, transcript files
      as the list of entries appended to them;
    - question counts and progress counters are integers ([Z]);
    - strings are sequences of one-byte characters read as Latin-1;
    - the clock and the client's reply to an elicitation are inputs of the
      handler that consumes them; a handler reads the clock once;
    - the file system itself never fails: the only exceptions modelled are
      the ones the handlers raise on their own data. *)

From Stdlib Require Import ZArith Ascii.
From Stdlib Require String.
From stdpp Require Import base option gmap strings list fin_maps.
From stdpp Require Import sorting.

Local Open Scope Z_scope.

(** ** JavaScript string and array primitives used by the server *)

Module Js.

Definition code (c : ascii) : N := N_of_ascii c.

Definition in_range (lo hi : N) (c : ascii) : bool :=
  ((lo <=? code c) && (code c <=? hi))%N.

(** [String.prototype.toLowerCase] on Latin-1: [A-Z] and the accented
    capitals U+00C0..U+00DE (but not the multiplication sign U+00D7)
    move up by 32. *)
Definition lower_char (c : ascii) : ascii :=
  if in_range 65 90 c || (in_range 192 222 c && negb (code c =? 215)%N)
  then ascii_of_N (code c + 32)
  else c.

Fixpoint toLowerCase (s : string) : string :=
  match s with
  | EmptyString => EmptyString
  | String c s' => String (lower_char c) (toLowerCase s')
  end.

(** The regular-expression class [\s] on Latin-1: TAB, LF, VT, FF, CR,
    SPACE and NO-BREAK SPACE. *)
Definition is_space (c : ascii) : bool :=
  in_range 9 13 c || (code c =? 32)%N || (code c =? 160)%N.

(** The two shapes of regular expression the server uses: one character
    of a class, and a non-empty greedy run of characters of a class. *)
Inductive pattern : Type :=
| PClass (cls : ascii → bool)
| PPlus (cls : ascii → bool).

Fixpoint run_length (cls : ascii → bool) (s : string) : nat :=
  match s with
  | EmptyString => O
  | String c s' => if cls c then S (run_length cls s') else O
  end.

(** Length of the match of [p] at the head of [s], if there is one. *)
Definition match_here (p : pattern) (s : string) : option nat :=
  match p with
  | PClass cls =>
      match s with
      | String c _ => if cls c then Some 1%nat else None
      | EmptyString => None
      end
  | PPlus cls =>
      match run_length cls s with
      | O => None
      | n => Some n
      end
  end.

(** [s.replace(/p/g, repl)]: scan left to right; at a match emit [repl]
    and resume after the match, otherwise copy one character.  [skip]
    counts the characters of the current match still to be consumed. *)
Fixpoint replace_all_from (p : pattern) (repl : string) (skip : nat)
    (s : string) : string :=
  match s with
  | EmptyString => EmptyString
  | String c s' =>
      match skip with
      | S k => replace_all_from p repl k s'
      | O =>
          match match_here p s with
          | Some (S k) => repl +:+ replace_all_from p repl k s'
          | _ => String c (replace_all_from p repl O s')
          end
      end
  end.

Definition replace_all (p : pattern) (repl : string) (s : string) : string :=
  replace_all_from p repl O s.

(** [s.replace(c, repl)] with a one-character string pattern: only the
    first occurrence is replaced. *)
Fixpoint replace_first (c : ascii) (repl : string) (s : string) : string :=
  match s with
  | EmptyString => EmptyString
  | String d s' =>
      if decide (d = c) then repl +:+ s' else String d (replace_first c repl s')
  end.

(** Relative index of [slice]: negative counts from the end, and the
    result is clamped to [0, len]. *)
Definition rel_index (len i : Z) : Z :=
  if i <? 0 then Z.max (len + i) 0 else Z.min i len.

(** [Array.prototype.slice(start, end)]; [end_ = None] is an omitted
    second argument. *)
Definition slice {A : Type} (start : Z) (end_ : option Z) (l : list A)
    : list A :=
  let len := Z.of_nat (length l) in
  let from := rel_index len start in
  let to := from_option (rel_index len) len end_ in
  take (Z.to_nat (to - from)) (drop (Z.to_nat from) l).

(** [arr[i]]: [undefined] (here [None]) outside the array. *)
Definition index {A : Type} (l : list A) (i : Z) : option A :=
  if i <? 0 then None else l !! Z.to_nat i.

Fixpoint str_take (n : nat) (s : string) : string :=
  match n, s with
  | S k, String c s' => String c (str_take k s')
  | _, _ => EmptyString
  end.

Fixpoint str_drop (n : nat) (s : string) : string :=
  match n, s with
  | S k, String _ s' => str_drop k s'
  | _, _ => s
  end.

(** [String.prototype.slice(start, end)]. *)
Definition str_slice (start end_ : Z) (s : string) : string :=
  let len := Z.of_nat (String.length s) in
  let from := rel_index len start in
  let to := rel_index len end_ in
  str_take (Z.to_nat (to - from)) (str_drop (Z.to_nat from) s).

(** [s.split(sep)] for a one-character separator. *)
Fixpoint split (sep : ascii) (s : string) : list string :=
  match s with
  | EmptyString => [EmptyString]
  | String c s' =>
      if decide (c = sep) then EmptyString :: split sep s'
      else
        match split sep s' with
        | seg :: segs => String c seg :: segs
        | [] => [String c EmptyString]
        end
  end.

(** [s.includes(t)]. *)
Fixpoint includes (s t : string) : bool :=
  String.prefix t s ||
  match s with
  | EmptyString => false
  | String _ s' => includes s' t
  end.

(** Truthiness of a value that is a string or [null]. *)
Definition truthy (v : option string) : bool :=
  match v with
  | Some s => negb (String.eqb s "")
  | None => false
  end.

End Js.

(** ** Folder names *)

(** The character class [[a-z0-9\s-]] of [createTimestampFolder]. *)
Definition slug_char (c : ascii) : bool :=
  Js.in_range 97 122 c || Js.in_range 48 57 c || Js.is_space c
  || (Js.code c =? 45)%N.

(** The [slug] constant of [createTimestampFolder]. *)
Definition slug (name : string) : string :=
  Js.str_slice 0 30
    (Js.replace_all (Js.PPlus Js.is_space) "-"
       (Js.replace_all (Js.PClass (λ c, negb (slug_char c))) ""
          (Js.toLowerCase name))).

(** The [timestamp] constant of [createTimestampFolder]; [now] is
    [new Date().toISOString()]. *)
Definition timestamp (now : string) : string :=
  Js.replace_first ":"%char ""
    (Js.replace_first "T"%char "-" (Js.str_slice 0 16 now)).

Definition createTimestampFolder (now : string) (name : string) : string :=
  timestamp now +:+ "-" +:+ slug name.

(** ** Data model *)

Module Phase.
Inductive t : Type := discovery | context | detail | complete.
#[global] Instance eq_dec : EqDecision t.
Proof. solve_decision. Defined.
End Phase.

Module Status.
Inductive t : Type := active | completed | incomplete.
#[global] Instance eq_dec : EqDecision t.
Proof. solve_decision. Defined.
End Status.

Record Settings : Type := {
  discoveryQuestions : Z;
  expertQuestions : Z
}.

Record Counter : Type := {
  answered : Z;
  total : Z
}.

Record Progress : Type := {
  discovery : Counter;
  detail : Counter
}.

(** [metadata.json].  [id] is [None] when the expression that computes it
    is [undefined]; [endedAt] and [settings] are [None] while the key is
    absent. *)
Record Metadata : Type := {
  id : option string;
  started : string;
  lastUpdated : string;
  endedAt : option string;
  status : Status.t;
  phase : Phase.t;
  progress : Progress;
  contextFiles : list string;
  relatedFeatures : list string;
  settings : option Settings
}.

Record Question : Type := {
  question : string;
  defaultValue : bool;
  reason : string
}.

(** [00-initial-request.md]. *)
Record InitialRequest : Type := {
  request_timestamp : string;
  request_text : string;
  request_session : string
}.

(** [01-discovery-questions.md]. *)
Record QuestionsFile : Type := {
  questions_generated : string;
  questions_total : Z;
  questions_list : list Question
}.

(** One [## Q<n>] block of an answers file. *)
Record AnswerEntry : Type := {
  entry_number : Z;
  entry_question : string;
  entry_answer : bool;
  entry_reasoning : string
}.

(** [02-discovery-answers.md] and [05-detail-answers.md]: the header with
    its start time, then the blocks in the order they were appended. *)
Record AnswersFile : Type := {
  answers_started : string;
  answers_entries : list AnswerEntry
}.

(** A session folder [requirements/<name>/]. *)
Record Folder : Type := {
  initial_request_md : option InitialRequest;
  metadata_json : option Metadata;
  discovery_questions_md : option QuestionsFile;
  discovery_answers_md : option AnswersFile;
  detail_answers_md : option AnswersFile
}.

(** What [JSON.parse] makes of [.mcp-settings.json]: it throws, or it
    yields a value whose two keys of interest may each be absent. *)
Inductive SettingsFile : Type :=
| Unparsable
| Parsed (discoveryQuestions expertQuestions : option Z).

(** The [requirements/] directory. *)
Record Store : Type := {
  current_requirement : option string;
  mcp_settings_json : option SettingsFile;
  index_md : option string;
  folders : gmap string Folder
}.

Definition empty_folder : Folder :=
  {| initial_request_md := None; metadata_json := None;
     discovery_questions_md := None; discovery_answers_md := None;
     detail_answers_md := None |}.

Definition empty_store : Store :=
  {| current_requirement := None; mcp_settings_json := None;
     index_md := None; folders := ∅ |}.

(** *** Field updates *)

Definition set_answered (n : Z) (c : Counter) : Counter :=
  {| answered := n; total := total c |}.

Definition set_discovery (c : Counter) (p : Progress) : Progress :=
  {| discovery := c; detail := detail p |}.

Definition set_detail (c : Counter) (p : Progress) : Progress :=
  {| discovery := discovery p; detail := c |}.

Definition set_progress (p : Progress) (m : Metadata) : Metadata :=
  {| id := id m; started := started m; lastUpdated := lastUpdated m;
     endedAt := endedAt m; status := status m; phase := phase m;
     progress := p; contextFiles := contextFiles m;
     relatedFeatures := relatedFeatures m; settings := settings m |}.

Definition set_lastUpdated (t : string) (m : Metadata) : Metadata :=
  {| id := id m; started := started m; lastUpdated := t;
     endedAt := endedAt m; status := status m; phase := phase m;
     progress := progress m; contextFiles := contextFiles m;
     relatedFeatures := relatedFeatures m; settings := settings m |}.

Definition set_endedAt (t : string) (m : Metadata) : Metadata :=
  {| id := id m; started := started m; lastUpdated := lastUpdated m;
     endedAt := Some t; status := status m; phase := phase m;
     progress := progress m; contextFiles := contextFiles m;
     relatedFeatures := relatedFeatures m; settings := settings m |}.

Definition set_status (s : Status.t) (m : Metadata) : Metadata :=
  {| id := id m; started := started m; lastUpdated := lastUpdated m;
     endedAt := endedAt m; status := s; phase := phase m;
     progress := progress m; contextFiles := contextFiles m;
     relatedFeatures := relatedFeatures m; settings := settings m |}.

Definition set_phase (p : Phase.t) (m : Metadata) : Metadata :=
  {| id := id m; started := started m; lastUpdated := lastUpdated m;
     endedAt := endedAt m; status := status m; phase := p;
     progress := progress m; contextFiles := contextFiles m;
     relatedFeatures := relatedFeatures m; settings := settings m |}.

Definition set_current_requirement (v : option string) (st : Store) : Store :=
  {| current_requirement := v; mcp_settings_json := mcp_settings_json st;
     index_md := index_md st; folders := folders st |}.

Definition set_mcp_settings_json (v : option SettingsFile) (st : Store) : Store :=
  {| current_requirement := current_requirement st; mcp_settings_json := v;
     index_md := index_md st; folders := folders st |}.

Definition set_index_md (v : option string) (st : Store) : Store :=
  {| current_requirement := current_requirement st;
     mcp_settings_json := mcp_settings_json st;
     index_md := v; folders := folders st |}.

Definition set_folders (fs : gmap string Folder) (st : Store) : Store :=
  {| current_requirement := current_requirement st;
     mcp_settings_json := mcp_settings_json st;
     index_md := index_md st; folders := fs |}.

(** ** File operations *)

(** [ensureDir(join(cwd, 'requirements', name))]: an existing folder is
    left as it is. *)
Definition ensureDir (name : string) (st : Store) : Store :=
  match folders st !! name with
  | Some _ => st
  | None => set_folders (<[name := empty_folder]> (folders st)) st
  end.

(** [fs.writeFile] of one file of a session folder.  Every call site has
    created the folder or has just found a file in it. *)
Definition write_in (name : string) (w : Folder → Folder) (st : Store) : Store :=
  set_folders (alter w name (folders st)) st.

Definition write_initial_request (v : InitialRequest) (f : Folder) : Folder :=
  {| initial_request_md := Some v; metadata_json := metadata_json f;
     discovery_questions_md := discovery_questions_md f;
     discovery_answers_md := discovery_answers_md f;
     detail_answers_md := detail_answers_md f |}.

Definition write_metadata (v : Metadata) (f : Folder) : Folder :=
  {| initial_request_md := initial_request_md f; metadata_json := Some v;
     discovery_questions_md := discovery_questions_md f;
     discovery_answers_md := discovery_answers_md f;
     detail_answers_md := detail_answers_md f |}.

Definition write_discovery_questions (v : QuestionsFile) (f : Folder) : Folder :=
  {| initial_request_md := initial_request_md f;
     metadata_json := metadata_json f;
     discovery_questions_md := Some v;
     discovery_answers_md := discovery_answers_md f;
     detail_answers_md := detail_answers_md f |}.

Definition write_discovery_answers (v : AnswersFile) (f : Folder) : Folder :=
  {| initial_request_md := initial_request_md f;
     metadata_json := metadata_json f;
     discovery_questions_md := discovery_questions_md f;
     discovery_answers_md := Some v;
     detail_answers_md := detail_answers_md f |}.

Definition write_detail_answers (v : AnswersFile) (f : Folder) : Folder :=
  {| initial_request_md := initial_request_md f;
     metadata_json := metadata_json f;
     discovery_questions_md := discovery_questions_md f;
     discovery_answers_md := discovery_answers_md f;
     detail_answers_md := Some v |}.

(** The metadata file of the session folder [name], when both exist. *)
Definition read_metadata (name : string) (st : Store) : option Metadata :=
  folders st !! name ≫= metadata_json.

Definition getCurrentRequirement (st : Store) : option string :=
  current_requirement st.

Definition setCurrentRequirement (folderName : string) (st : Store) : Store :=
  set_current_requirement (Some folderName) st.

Definition clearCurrentRequirement (st : Store) : Store :=
  set_current_requirement None st.

(** ** Settings store *)

Definition DEFAULT_SETTINGS : Settings :=
  {| discoveryQuestions := 5; expertQuestions := 5 |}.

(** [{ ...DEFAULT_SETTINGS, ...parsed }], or the defaults when the file
    cannot be read or parsed. *)
Definition loadSettings (st : Store) : Settings :=
  match mcp_settings_json st with
  | Some (Parsed dq eq) =>
      {| discoveryQuestions := default (discoveryQuestions DEFAULT_SETTINGS) dq;
         expertQuestions := default (expertQuestions DEFAULT_SETTINGS) eq |}
  | Some Unparsable | None => DEFAULT_SETTINGS
  end.

Definition saveSettings (s : Settings) (st : Store) : Store :=
  set_mcp_settings_json
    (Some (Parsed (Some (discoveryQuestions s)) (Some (expertQuestions s)))) st.

(** ** Question bank *)

Definition mkQ (q : string) (d : bool) (r : string) : Question :=
  {| question := q; defaultValue := d; reason := r |}.

Definition allQuestions : list Question := [
  mkQ "Will users interact with this feature through a visual interface?"
      true "most features have some UI component";
  mkQ "Does this feature need to work on mobile devices?"
      true "mobile-first is standard practice";
  mkQ "Will this feature handle sensitive or private user data?"
      true "better to be secure by default";
  mkQ "Do users currently have a workaround for this problem?"
      false "assuming this solves a new need";
  mkQ "Will this feature need to work offline?"
      false "most features require connectivity";
  mkQ "Will this feature require real-time updates or notifications?"
      false "real-time features add complexity";
  mkQ "Does this feature need to integrate with external APIs or services?"
      false "internal features are more common";
  mkQ "Will this feature need to scale to handle many concurrent users?"
      true "better to plan for scale upfront";
  mkQ "Does this feature require user authentication or authorization?"
      true "most features need some level of access control";
  mkQ "Will this feature need to maintain audit logs or activity history?"
      false "audit logs are typically for specific use cases"
].

Definition generateDiscoveryQuestions (count : Z) : list Question :=
  Js.slice 0 (Some count) allQuestions.

(** The literal array of the detail branch of [requirements-status]. *)
Definition expertQuestionBank : list Question := [
  mkQ "Should this feature be accessible to all user roles?"
      false "role-based access is more common for new features";
  mkQ "Will this feature require database schema changes?"
      true "most new features need new data structures";
  mkQ "Should this feature have comprehensive error handling and validation?"
      true "robust error handling is a best practice";
  mkQ "Will this feature need to be backwards compatible with existing APIs?"
      true "maintaining API compatibility is usually required";
  mkQ "Should this feature include comprehensive logging and monitoring?"
      true "observability is critical for production features"
].

(** ** Elicitation *)

Module Elicit.
Inductive action : Type := accept | decline | cancel.
End Elicit.

(** The value [elicitInput] resolves to: the user's action and
    [content?.answer]. *)
Record ElicitResult : Type := {
  elicit_action : Elicit.action;
  elicit_answer : option bool
}.

(** [askQuestion]: [reply = None] is a rejected [elicitInput] promise
    (the exception reaches the handler), and the result is then [None]. *)
Definition askQuestion (reply : option ElicitResult) (defaultValue : bool)
    : option bool :=
  result ← reply;
  Some match elicit_action result, elicit_answer result with
       | Elicit.accept, Some a => a
       | _, _ => defaultValue
       end.

(** ** Tool responses *)

Module EndAction.
Inductive t : Type := complete | incomplete | delete.
End EndAction.

Module SettingsAction.
Inductive t : Type := get | set.
End SettingsAction.

(** One constructor per message a handler returns.  [HandlerError] is the
    [catch] block of a handler, [InvalidParams] the rejection of the
    arguments by the tool's input schema. *)
Inductive Response : Type :=
| SessionAlreadyActive (currentRequirement : string)
| Started (folderName : string) (settings : option Settings)
| NoActiveSession
| MetadataMissing (currentRequirement : string)
| DiscoveryPhaseComplete (answer : bool) (q : Question)
| QuestionAnswered (answer : bool) (q : Question) (p : Counter)
| ContextPhaseComplete
| ExpertQuestionsComplete (answer : bool) (q : Question)
| ExpertQuestionAnswered (answer : bool) (q : Question) (p : Counter)
| StatusReport (currentRequirement : string) (metadata : Metadata)
| SessionDeleted (currentRequirement : string)
| SessionEnded (currentRequirement : string) (action : EndAction.t)
| CurrentSettings (settings : Settings)
| SettingsUpdated (settings : Settings)
| InvalidParams
| HandlerError.

(** The [isError] flag of a response. *)
Definition isError (r : Response) : bool :=
  match r with
  | MetadataMissing _ | InvalidParams | HandlerError => true
  | _ => false
  end.

(** ** Tool: requirements-start *)

(** The [metadata] literal of the handler. *)
Definition initial_metadata (now folderName : string) (settings : Settings)
    : Metadata :=
  {| id := Js.index (Js.slice (-1) None (Js.split "-" folderName)) 0;
     started := now;
     lastUpdated := now;
     endedAt := None;
     status := Status.active;
     phase := Phase.discovery;
     progress :=
       {| discovery := {| answered := 0; total := discoveryQuestions settings |};
          detail := {| answered := 0; total := expertQuestions settings |} |};
     contextFiles := [];
     relatedFeatures := [];
     settings := Some settings |}.

Definition initial_request (now request folderName : string) : InitialRequest :=
  {| request_timestamp := now; request_text := request;
     request_session := folderName |}.

Definition requirements_start (now request : string) (st : Store)
    : Response * Store :=
  let currentRequirement := getCurrentRequirement st in
  if Js.truthy currentRequirement then
    (SessionAlreadyActive (default "" currentRequirement), st)
  else
    let folderName := createTimestampFolder now request in
    let st := ensureDir folderName st in
    let settings := loadSettings st in
    let metadata := initial_metadata now folderName settings in
    let st :=
      write_in folderName
        (write_initial_request (initial_request now request folderName)) st in
    let st := write_in folderName (write_metadata metadata) st in
    let st := setCurrentRequirement folderName st in
    let discoveryQuestions' :=
      generateDiscoveryQuestions (discoveryQuestions settings) in
    let st :=
      write_in folderName
        (write_discovery_questions
           {| questions_generated := now;
              questions_total := discoveryQuestions settings;
              questions_list := discoveryQuestions' |}) st in
    (Started folderName (Some settings), st).

(** ** Tool: requirements-status *)

(** Appending one block to an answers file, which is created with its
    header when it does not exist yet. *)
Definition append_answer (now : string) (e : AnswerEntry)
    (file : option AnswersFile) : AnswersFile :=
  match file with
  | Some a =>
      {| answers_started := answers_started a;
         answers_entries := answers_entries a ++ [e] |}
  | None => {| answers_started := now; answers_entries := [e] |}
  end.

Definition answer_entry (index : Z) (q : Question) (answer : bool)
    : AnswerEntry :=
  {| entry_number := index + 1; entry_question := question q;
     entry_answer := answer; entry_reasoning := reason q |}.

(** The branch [metadata.phase === "discovery" && answered < total].
    Reading [currentQuestion.question] of an [undefined] question and a
    rejected elicitation both throw before anything is written. *)
Definition answer_discovery (now : string) (reply : option ElicitResult)
    (currentRequirement : string) (metadata : Metadata) (st : Store)
    : Response * Store :=
  let currentQuestionIndex := answered (discovery (progress metadata)) in
  let settings := default (loadSettings st) (settings metadata) in
  let discoveryQuestions' :=
    generateDiscoveryQuestions (discoveryQuestions settings) in
  match Js.index discoveryQuestions' currentQuestionIndex with
  | None => (HandlerError, st)
  | Some currentQuestion =>
      match askQuestion reply (defaultValue currentQuestion) with
      | None => (HandlerError, st)
      | Some answer =>
          let metadata :=
            set_progress
              (set_discovery
                 (set_answered (currentQuestionIndex + 1)
                    (discovery (progress metadata)))
                 (progress metadata)) metadata in
          let metadata := set_lastUpdated now metadata in
          let entry := answer_entry currentQuestionIndex currentQuestion answer in
          let st :=
            write_in currentRequirement
              (λ f, write_discovery_answers
                      (append_answer now entry (discovery_answers_md f)) f) st in
          let st := write_in currentRequirement (write_metadata metadata) st in
          if answered (discovery (progress metadata))
             >=? total (discovery (progress metadata))
          then
            let metadata := set_phase Phase.context metadata in
            let st := write_in currentRequirement (write_metadata metadata) st in
            (DiscoveryPhaseComplete answer currentQuestion, st)
          else
            (QuestionAnswered answer currentQuestion
               (discovery (progress metadata)), st)
      end
  end.

(** The branch [metadata.phase === "context"]. *)
Definition leave_context (now : string) (currentRequirement : string)
    (metadata : Metadata) (st : Store) : Response * Store :=
  let metadata := set_phase Phase.detail metadata in
  let metadata := set_lastUpdated now metadata in
  (ContextPhaseComplete,
   write_in currentRequirement (write_metadata metadata) st).

(** The branch [metadata.phase === "detail" && answered < total]. *)
Definition answer_detail (now : string) (reply : option ElicitResult)
    (currentRequirement : string) (metadata : Metadata) (st : Store)
    : Response * Store :=
  let currentQuestionIndex := answered (detail (progress metadata)) in
  let expertQuestions' :=
    Js.slice 0 (Some (total (detail (progress metadata)))) expertQuestionBank in
  match Js.index expertQuestions' currentQuestionIndex with
  | None => (HandlerError, st)
  | Some currentQuestion =>
      match askQuestion reply (defaultValue currentQuestion) with
      | None => (HandlerError, st)
      | Some answer =>
          let metadata :=
            set_progress
              (set_detail
                 (set_answered (currentQuestionIndex + 1)
                    (detail (progress metadata)))
                 (progress metadata)) metadata in
          let metadata := set_lastUpdated now metadata in
          let entry := answer_entry currentQuestionIndex currentQuestion answer in
          let st :=
            write_in currentRequirement
              (λ f, write_detail_answers
                      (append_answer now entry (detail_answers_md f)) f) st in
          let st := write_in currentRequirement (write_metadata metadata) st in
          if answered (detail (progress metadata))
             >=? total (detail (progress metadata))
          then
            let metadata := set_phase Phase.complete metadata in
            let metadata := set_status Status.completed metadata in
            let st := write_in currentRequirement (write_metadata metadata) st in
            (ExpertQuestionsComplete answer currentQuestion, st)
          else
            (ExpertQuestionAnswered answer currentQuestion
               (detail (progress metadata)), st)
      end
  end.

Definition requirements_status (now : string) (reply : option ElicitResult)
    (st : Store) : Response * Store :=
  let currentRequirement := getCurrentRequirement st in
  if negb (Js.truthy currentRequirement) then (NoActiveSession, st)
  else
    let currentRequirement := default "" currentRequirement in
    match read_metadata currentRequirement st with
    | None => (MetadataMissing currentRequirement, st)
    | Some metadata =>
        if bool_decide (phase metadata = Phase.discovery)
           && (answered (discovery (progress metadata))
               <? total (discovery (progress metadata)))
        then answer_discovery now reply currentRequirement metadata st
        else if bool_decide (phase metadata = Phase.context)
        then leave_context now currentRequirement metadata st
        else if bool_decide (phase metadata = Phase.detail)
                && (answered (detail (progress metadata))
                    <? total (detail (progress metadata)))
        then answer_detail now reply currentRequirement metadata st
        else (StatusReport currentRequirement metadata, st)
    end.

(** ** Tool: requirements-end *)

Definition nl : string := String "010"%char EmptyString.

Definition index_header : string :=
  "# Requirements Index" +:+ nl +:+ nl
  +:+ "This file tracks all requirements gathering sessions." +:+ nl +:+ nl.

Definition index_entry (action : EndAction.t) (currentRequirement today : string)
    : string :=
  let statusEmoji :=
    match action with EndAction.complete => "✅" | _ => "⚠️" end in
  let statusText :=
    match action with EndAction.complete => "Completed" | _ => "Incomplete" end in
  "- " +:+ statusEmoji +:+ " **" +:+ currentRequirement +:+ "** - "
  +:+ statusText +:+ " (" +:+ today +:+ ")" +:+ nl.

(** [now] is [new Date().toISOString()], [today] is
    [new Date().toLocaleDateString()]. *)
Definition requirements_end (now today : string) (action : EndAction.t)
    (st : Store) : Response * Store :=
  let currentRequirement := getCurrentRequirement st in
  if negb (Js.truthy currentRequirement) then (NoActiveSession, st)
  else
    let currentRequirement := default "" currentRequirement in
    match action with
    | EndAction.delete =>
        let st := set_folders (delete currentRequirement (folders st)) st in
        let st := clearCurrentRequirement st in
        (SessionDeleted currentRequirement, st)
    | _ =>
        let st :=
          match read_metadata currentRequirement st with
          | Some metadata =>
              let metadata :=
                set_status
                  match action with
                  | EndAction.complete => Status.completed
                  | _ => Status.incomplete
                  end metadata in
              let metadata := set_lastUpdated now metadata in
              let metadata := set_endedAt now metadata in
              write_in currentRequirement (write_metadata metadata) st
          | None => st
          end in
        let indexContent := default index_header (index_md st) in
        let newEntry := index_entry action currentRequirement today in
        let st :=
          if negb (Js.includes indexContent currentRequirement)
          then set_index_md (Some (indexContent +:+ newEntry)) st
          else st in
        let st := clearCurrentRequirement st in
        (SessionEnded currentRequirement action, st)
    end.

(** ** Tool: requirements-settings *)

(** [z.number().min(1).max(20).optional()]. *)
Definition schema_count (v : option Z) : bool :=
  match v with
  | None => true
  | Some n => (1 <=? n) && (n <=? 20)
  end.

(** The handler proper, run on arguments that passed the input schema. *)
Definition settings_handler (action : SettingsAction.t)
    (discoveryQuestions' expertQuestions' : option Z) (st : Store)
    : Response * Store :=
  match action with
  | SettingsAction.get => (CurrentSettings (loadSettings st), st)
  | SettingsAction.set =>
      let currentSettings := loadSettings st in
      let newSettings :=
        {| discoveryQuestions :=
             default (discoveryQuestions currentSettings) discoveryQuestions';
           expertQuestions :=
             default (expertQuestions currentSettings) expertQuestions' |} in
      (SettingsUpdated newSettings, saveSettings newSettings st)
  end.

(** The registered tool: the server checks the arguments against
    [inputSchema] and calls the handler only when they conform. *)
Definition requirements_settings (action : SettingsAction.t)
    (discoveryQuestions' expertQuestions' : option Z) (st : Store)
    : Response * Store :=
  if schema_count discoveryQuestions' && schema_count expertQuestions'
  then settings_handler action discoveryQuestions' expertQuestions' st
  else (InvalidParams, st).

(** ** The server as a transition system *)

(** A tool call together with the inputs it reads from its environment.
    The read-only tools ([requirements-current], [requirements-list],
    [requirements-remind]) write nothing and are left out. *)
Inductive Call : Type :=
| CallStart (now request : string)
| CallStatus (now : string) (reply : option ElicitResult)
| CallEnd (now today : string) (action : EndAction.t)
| CallSettings (action : SettingsAction.t)
    (discoveryQuestions' expertQuestions' : option Z).

Definition handle (c : Call) (st : Store) : Response * Store :=
  match c with
  | CallStart now request => requirements_start now request st
  | CallStatus now reply => requirements_status now reply st
  | CallEnd now today action => requirements_end now today action st
  | CallSettings action dq eq => requirements_settings action dq eq st
  end.

(** The store after a sequence of calls. *)
Definition run (calls : list Call) (st : Store) : Store :=
  foldl (λ st c, (handle c st).2) st calls.

(** [advance()]: one call of [requirements-status]; its inputs are the
    clock and the client's reply. *)
Definition advance (input : string * option ElicitResult) (st : Store) : Store :=
  (requirements_status input.1 input.2 st).2.

Definition advance_all (inputs : list (string * option ElicitResult))
    (st : Store) : Store :=
  foldl (λ st i, advance i st) st inputs.

(** The metadata of the session the registry pointer names. *)
Definition active_metadata (st : Store) : option Metadata :=
  name ← getCurrentRequirement st; read_metadata name st.

(** ** The first build: no settings, read-only status *)

Module FirstBuild.

Definition initial_metadata (now folderName : string) : Metadata :=
  {| id := Js.index (Js.slice (-1) None (Js.split "-" folderName)) 0;
     started := now;
     lastUpdated := now;
     endedAt := None;
     status := Status.active;
     phase := Phase.discovery;
     progress :=
       {| discovery := {| answered := 0; total := 5 |};
          detail := {| answered := 0; total := 0 |} |};
     contextFiles := [];
     relatedFeatures := [];
     settings := None |}.

Definition requirements_start (now request : string) (st : Store)
    : Response * Store :=
  let currentRequirement := getCurrentRequirement st in
  if Js.truthy currentRequirement then
    (SessionAlreadyActive (default "" currentRequirement), st)
  else
    let folderName := createTimestampFolder now request in
    let st := ensureDir folderName st in
    let metadata := initial_metadata now folderName in
    let st :=
      write_in folderName
        (write_initial_request (initial_request now request folderName)) st in
    let st := write_in folderName (write_metadata metadata) st in
    let st := setCurrentRequirement folderName st in
    (Started folderName None, st).

Definition requirements_status (st : Store) : Response * Store :=
  let currentRequirement := getCurrentRequirement st in
  if negb (Js.truthy currentRequirement) then (NoActiveSession, st)
  else
    let currentRequirement := default "" currentRequirement in
    match read_metadata currentRequirement st with
    | None => (MetadataMissing currentRequirement, st)
    | Some metadata => (StatusReport currentRequirement metadata, st)
    end.

End FirstBuild.

(** ** The slug as the specification words it *)

Module SlugSpec.

(** Lower-casing, character by character. *)
Fixpoint lowercase (s : string) : string :=
  match s with
  | EmptyString => EmptyString
  | String c s' => String (Js.lower_char c) (lowercase s')
  end.

(** Dropping every character outside [[a-z0-9\s-]]. *)
Fixpoint strip (s : string) : string :=
  match s with
  | EmptyString => EmptyString
  | String c s' => if slug_char c then String c (strip s') else strip s'
  end.

(** Turning each run of whitespace into one hyphen; [in_run] tells that
    the previous character was whitespace. *)
Fixpoint hyphenate (in_run : bool) (s : string) : string :=
  match s with
  | EmptyString => EmptyString
  | String c s' =>
      if Js.is_space c then
        if in_run then hyphenate true s' else String "-" (hyphenate true s')
      else String c (hyphenate false s')
  end.

Definition slug_spec (requestText : string) : string :=
  String.substring 0 30 (hyphenate false (strip (lowercase requestText))).

End SlugSpec.

(** ** Session invariants *)

(** [answered ≤ total] for both counters. *)
Definition counters_ok (m : Metadata) : Prop :=
  answered (discovery (progress m)) ≤ total (discovery (progress m))
  ∧ answered (detail (progress m)) ≤ total (detail (progress m)).

(** Neither [answered] counter is smaller in [m'] than in [m]. *)
Definition answered_le (m m' : Metadata) : Prop :=
  answered (discovery (progress m)) ≤ answered (discovery (progress m'))
  ∧ answered (detail (progress m)) ≤ answered (detail (progress m')).

(** The phase edges of the workflow, with their guards read in the state
    the edge leads to. *)
Inductive phase_edge (m m' : Metadata) : Prop :=
| edge_discovery_context :
    phase m = Phase.discovery → phase m' = Phase.context →
    answered (discovery (progress m')) = total (discovery (progress m')) →
    phase_edge m m'
| edge_context_detail :
    phase m = Phase.context → phase m' = Phase.detail →
    phase_edge m m'
| edge_detail_complete :
    phase m = Phase.detail → phase m' = Phase.complete →
    answered (detail (progress m')) = total (detail (progress m')) →
    phase_edge m m'.

(** The position of a phase in the chain. *)
Definition phase_rank (p : Phase.t) : nat :=
  match p with
  | Phase.discovery => 0
  | Phase.context => 1
  | Phase.detail => 2
  | Phase.complete => 3
  end.

(** What one [requirements-status] call does to the metadata record. *)
Inductive status_step (m : Metadata) : Metadata → Prop :=
| step_none : status_step m m
| step_discovery now :
    phase m = Phase.discovery →
    answered (discovery (progress m)) < total (discovery (progress m)) →
    let m1 :=
      set_lastUpdated now
        (set_progress
           (set_discovery
              (set_answered (answered (discovery (progress m)) + 1)
                 (discovery (progress m)))
              (progress m)) m) in
    status_step m
      (if answered (discovery (progress m1)) >=? total (discovery (progress m1))
       then set_phase Phase.context m1 else m1)
| step_context now :
    phase m = Phase.context →
    status_step m (set_lastUpdated now (set_phase Phase.detail m))
| step_detail now :
    phase m = Phase.detail →
    answered (detail (progress m)) < total (detail (progress m)) →
    let m1 :=
      set_lastUpdated now
        (set_progress
           (set_detail
              (set_answered (answered (detail (progress m)) + 1)
                 (detail (progress m)))
              (progress m)) m) in
    status_step m
      (if answered (detail (progress m1)) >=? total (detail (progress m1))
       then set_status Status.completed (set_phase Phase.complete m1) else m1).

(** The settings file holds nothing outside [1, 20]. *)
Definition settings_file_ok (st : Store) : Prop :=
  match mcp_settings_json st with
  | Some (Parsed dq eq) => schema_count dq && schema_count eq = true
  | _ => True
  end.

(** Every metadata file of the store satisfies [counters_ok]. *)
Definition sessions_ok (st : Store) : Prop :=
  ∀ name m, read_metadata name st = Some m → counters_ok m.

Definition store_ok (st : Store) : Prop :=
  settings_file_ok st ∧ sessions_ok st.

(** Stores used in the examples. *)
Definition dangling_store : Store :=
  set_current_requirement (Some "2025-07-14-0905-add-dark-mode") empty_store.

Definition dark_mode_store : Store :=
  (requirements_start "2025-07-14T09:05:33.120Z" "Add dark mode" empty_store).2.

Definition accept_yes : option ElicitResult :=
  Some {| elicit_action := Elicit.accept; elicit_answer := Some true |}.

(** The folder of a session right after [requirements-start] created it
    over the previous content [f0] of that folder. *)
Definition started_folder (now request folderName : string) (s : Settings)
    (f0 : Folder) : Folder :=
  write_discovery_questions
    {| questions_generated := now;
       questions_total := discoveryQuestions s;
       questions_list := generateDiscoveryQuestions (discoveryQuestions s) |}
    (write_metadata (initial_metadata now folderName s)
       (write_initial_request (initial_request now request folderName) f0)).

(** The same for the first build, which writes no questions file. *)
Definition first_build_started_folder (now request folderName : string)
    (f0 : Folder) : Folder :=
  write_metadata (FirstBuild.initial_metadata now folderName)
    (write_initial_request (initial_request now request folderName) f0).

(** The session of [dark_mode_store] after its five discovery answers. *)
Definition context_store : Store :=
  advance_all (replicate 5 ("2025-07-14T09:06:00.000Z", accept_yes))
    dark_mode_store.

(** ** Predicates on strings *)

(** Every character of [s] satisfies [P]. *)
Fixpoint str_forall (P : ascii → bool) (s : string) : bool :=
  match s with
  | EmptyString => true
  | String c s' => P c && str_forall P s'
  end.

(** The characters [[a-z0-9-]]. *)
Definition folder_char (c : ascii) : bool :=
  Js.in_range 97 122 c || Js.in_range 48 57 c || (Js.code c =? 45)%N.

(** Any character but [c]. *)
Definition not_char (c : ascii) (d : ascii) : bool := negb (bool_decide (d = c)).

(** Responses that only report: refusals, errors and read-outs. *)
Definition reports_only (r : Response) : bool :=
  match r with
  | SessionAlreadyActive _ | NoActiveSession | MetadataMissing _
  | StatusReport _ _ | CurrentSettings _ | InvalidParams | HandlerError => true
  | _ => false
  end.

(** The text of [index.md] that [requirements-end] starts from. *)
Definition index_content (st : Store) : string :=
  default index_header (index_md st).

(** The metadata update of [requirements-end] for [complete] and
    [incomplete]. *)
Definition ended_metadata (now : string) (action : EndAction.t) (m : Metadata)
    : Metadata :=
  set_endedAt now
    (set_lastUpdated now
       (set_status
          match action with
          | EndAction.complete => Status.completed
          | _ => Status.incomplete
          end m)).

(** A session started with twelve discovery questions configured, after
    ten answers. *)
Definition twelve_store : Store :=
  run
    (CallSettings SettingsAction.set (Some 12) None
     :: CallStart "2025-07-14T09:05:33.120Z" "Add dark mode"
     :: replicate 10 (CallStatus "2025-07-14T09:06:00.000Z" accept_yes))
    empty_store.

(** The answer [askQuestion] returns when the elicitation resolves to
    [r]: the user's answer if it was accepted with one, else the
    question's default. *)
Definition chosen_answer (r : ElicitResult) (q : Question) : bool :=
  match elicit_action r, elicit_answer r with
  | Elicit.accept, Some a => a
  | _, _ => defaultValue q
  end.

(** The metadata after one more answered discovery question. *)
Definition answered_discovery (now : string) (m : Metadata) : Metadata :=
  let m1 :=
    set_lastUpdated now
      (set_progress
         (set_discovery
            (set_answered (answered (discovery (progress m)) + 1)
               (discovery (progress m)))
            (progress m)) m) in
  if answered (discovery (progress m1)) >=? total (discovery (progress m1))
  then set_phase Phase.context m1 else m1.

(** The metadata after one more answered expert question. *)
Definition answered_detail (now : string) (m : Metadata) : Metadata :=
  let m1 :=
    set_lastUpdated now
      (set_progress
         (set_detail
            (set_answered (answered (detail (progress m)) + 1)
               (detail (progress m)))
            (progress m)) m) in
  if answered (detail (progress m1)) >=? total (detail (progress m1))
  then set_status Status.completed (set_phase Phase.complete m1) else m1.

(** The two answers files of a session folder. *)
Definition discovery_answers (name : string) (st : Store) : option AnswersFile :=
  folders st !! name ≫= discovery_answers_md.

Definition detail_answers (name : string) (st : Store) : option AnswersFile :=
  folders st !! name ≫= detail_answers_md.

(** The blocks of an answers file, none when the file does not exist. *)
Definition entries (file : option AnswersFile) : list AnswerEntry :=
  from_option answers_entries [] file.

(** A session folder that already holds a discovery transcript and the
    metadata of an ended session. *)
Definition reused_store : Store :=
  (requirements_end "2025-07-14T09:05:50.000Z" "7/14/2025" EndAction.incomplete
     (advance ("2025-07-14T09:05:40.000Z", accept_yes) dark_mode_store)).2.

(** ** Tool: requirements-list *)

(** One session of the listing: the folder name, then status, phase and
    start time as the metadata file gives them ([None] is the handler's
    ["Unknown"], also used for an empty start time), and the active
    marker. *)
Record ListRow : Type := {
  row_folder : string;
  row_status : option Status.t;
  row_phase : option Phase.t;
  row_started : option string;
  row_active : bool
}.

(** The two answers of [requirements-list]: nothing to list, or the
    sessions together with whether the actions for an active session are
    offered. *)
Inductive ListResponse : Type :=
| NoSessionsFound
| SessionList (rows : list ListRow) (offersActive : bool).

(** The body of the [for] loop. *)
Definition list_row (currentRequirement : option string) (st : Store)
    (folder : string) : ListRow :=
  let metadata := read_metadata folder st in
  {| row_folder := folder;
     row_status := status <$> metadata;
     row_phase := phase <$> metadata;
     row_started :=
       metadata ≫= λ m,
         if String.eqb (started m) "" then None else Some (started m);
     row_active := bool_decide (Some folder = currentRequirement) |}.

(** The handler reads the directory in no particular order, sorts the
    folder names and reverses them.  It writes nothing. *)
Definition requirements_list (st : Store) : ListResponse :=
  let folders' := (map_to_list (folders st)).*1 in
  if bool_decide (length folders' = 0%nat) then NoSessionsFound
  else
    let currentRequirement := getCurrentRequirement st in
    let sortedFolders := reverse (merge_sort String.le folders') in
    SessionList (list_row currentRequirement st <$> sortedFolders)
      (Js.truthy currentRequirement).

(** A session configured with one discovery question, answered, moved to
    [detail] and then ended as incomplete. *)
Definition ended_in_detail_store : Store :=
  run
    [CallSettings SettingsAction.set (Some 1) None;
     CallStart "2025-07-14T09:05:33.120Z" "Add dark mode";
     CallStatus "2025-07-14T09:05:40.000Z" accept_yes;
     CallStatus "2025-07-14T09:05:45.000Z" None;
     CallEnd "2025-07-14T09:05:50.000Z" "7/14/2025" EndAction.incomplete]
    empty_store.

(** * Properties *)

(** ** Strings *)

Lemma append_empty_l (s : string) : "" +:+ s = s.
Proof. reflexivity. Qed.

Lemma append_cons (c : ascii) (s t : string) :
  String c s +:+ t = String c (s +:+ t).
Proof. reflexivity. Qed.

Lemma toLowerCase_lowercase (s : string) :
  Js.toLowerCase s = SlugSpec.lowercase s.
Proof. induction s as [|c s IH]; simpl; [done | by rewrite IH]. Qed.

(** Replacing every character outside a class by nothing keeps exactly the
    characters of the class. *)
Lemma replace_all_strip (s : string) :
  Js.replace_all (Js.PClass (λ c, negb (slug_char c))) "" s = SlugSpec.strip s.
Proof.
  unfold Js.replace_all.
  induction s as [|c s IH]; simpl; [done|].
  destruct (slug_char c); simpl.
  - by rewrite IH.
  - destruct s; [done | by rewrite append_empty_l, IH].
Qed.

(** Replacing each maximal whitespace run by a hyphen: the scanner with
    no pending match agrees with [hyphenate false], and the scanner that
    still has the rest of a run to consume agrees with [hyphenate true]. *)
Lemma replace_runs_hyphenate (s : string) :
  Js.replace_all_from (Js.PPlus Js.is_space) "-" O s
  = SlugSpec.hyphenate false s
  ∧ Js.replace_all_from (Js.PPlus Js.is_space) "-"
      (Js.run_length Js.is_space s) s
    = SlugSpec.hyphenate true s.
Proof.
  induction s as [|c s [IH0 IHrun]]; [done|].
  cbn [Js.replace_all_from Js.match_here Js.run_length SlugSpec.hyphenate].
  destruct (Js.is_space c) eqn:Hc.
  - rewrite IHrun. split; reflexivity.
  - rewrite IH0. split; reflexivity.
Qed.

Lemma str_take_substring (n : nat) (s : string) :
  Js.str_take n s = String.substring 0 n s.
Proof.
  revert s; induction n as [|n IH]; intros [|c s]; simpl; try done.
  by rewrite IH.
Qed.

Lemma str_take_length (n : nat) (s : string) :
  (String.length s ≤ n)%nat → Js.str_take n s = s.
Proof.
  revert s; induction n as [|n IH]; intros [|c s]; simpl; intros Hn;
    try done; [lia|].
  rewrite IH; [done | lia].
Qed.

(** [s.slice(0, n)] is the prefix of length at most [n]. *)
Lemma str_slice_prefix (n : nat) (s : string) :
  Js.str_slice 0 (Z.of_nat n) s = Js.str_take n s.
Proof.
  unfold Js.str_slice, Js.rel_index.
  rewrite (proj2 (Z.ltb_ge 0 0)) by lia.
  rewrite (proj2 (Z.ltb_ge (Z.of_nat n) 0)) by lia.
  rewrite (Z.min_l 0) by lia. simpl Js.str_drop.
  destruct (decide (n ≤ String.length s)%nat) as [Hle|Hgt].
  - rewrite Z.min_l by lia. f_equal. lia.
  - rewrite Z.min_r by lia.
    replace (Z.to_nat (Z.of_nat (String.length s) - 0)) with (String.length s)
      by lia.
    rewrite !str_take_length; [done | lia | lia].
Qed.

Lemma slug_refines_spec (name : string) : slug name = SlugSpec.slug_spec name.
Proof.
  unfold slug, SlugSpec.slug_spec.
  change 30 with (Z.of_nat 30).
  rewrite str_slice_prefix, str_take_substring.
  rewrite toLowerCase_lowercase, replace_all_strip.
  unfold Js.replace_all.
  by rewrite (proj1 (replace_runs_hyphenate _)).
Qed.

(** C5, the example as the specification gives it: the hyphen of
    [Dark-Mode] belongs to the class that is kept, so the slug of
    ["Add Dark-Mode!! Support"] is not [add-darkmode-support]. *)
Lemma slug_example_keeps_hyphen :
  slug "Add Dark-Mode!! Support" ≠ "add-darkmode-support".
Proof. vm_compute. discriminate. Qed.

(** C5, amended: the slug of a request text is the text lower-cased, with
    the characters outside [[a-z0-9\s-]] removed, each whitespace run
    replaced by one hyphen, cut to its first 30 characters; for
    ["Add Dark-Mode!! Support"] it is [add-dark-mode-support]. *)
Theorem slug_derivation :
  (∀ requestText : string, slug requestText = SlugSpec.slug_spec requestText)
  ∧ slug "Add Dark-Mode!! Support" = "add-dark-mode-support".
Proof.
  split; [apply slug_refines_spec|].
  vm_compute. reflexivity.
Qed.

(** ** Registry pointer *)

Lemma truthy_pointer (cur : string) : cur ≠ "" → Js.truthy (Some cur) = true.
Proof.
  intros Hne. unfold Js.truthy.
  by rewrite (proj2 (String.eqb_neq cur "")).
Qed.

(** An empty pointer file counts as no active session. *)
Lemma truthy_empty_pointer : Js.truthy (Some "") = false.
Proof. reflexivity. Qed.

(** C3: while the registry pointer names a session, [requirements-start]
    answers that a session is already active, whatever the request text,
    and leaves the whole [requirements/] directory as it was: no folder,
    no file and no pointer is written.  Both builds behave so. *)
Theorem start_while_active_fails (now request cur : string) (st : Store) :
  getCurrentRequirement st = Some cur → cur ≠ "" →
  requirements_start now request st = (SessionAlreadyActive cur, st)
  ∧ FirstBuild.requirements_start now request st = (SessionAlreadyActive cur, st).
Proof.
  intros Hcur Hne.
  unfold requirements_start, FirstBuild.requirements_start.
  by rewrite Hcur, (truthy_pointer cur Hne).
Qed.

Lemma start_while_active_fails_witness :
  getCurrentRequirement dark_mode_store = Some "2025-07-14-0905-add-dark-mode"
  ∧ requirements_start "2025-07-14T09:06:10.000Z" "Export to PDF" dark_mode_store
    = (SessionAlreadyActive "2025-07-14-0905-add-dark-mode", dark_mode_store).
Proof.
  split; [vm_compute; reflexivity|].
  apply (start_while_active_fails _ _ "2025-07-14-0905-add-dark-mode").
  - vm_compute; reflexivity.
  - apply String.eqb_neq. reflexivity.
Defined.

(** ** Missing metadata *)

(** C6, as the specification states it, fails: with the pointer naming a
    session that has no metadata file, [requirements-status] neither
    reports that no session is active nor clears the pointer. *)
Lemma status_missing_metadata_no_self_heal :
  let result := requirements_status "2025-07-14T09:10:00.000Z" None dangling_store in
  result.1 ≠ NoActiveSession
  ∧ getCurrentRequirement result.2 ≠ None
  ∧ result = (MetadataMissing "2025-07-14-0905-add-dark-mode", dangling_store).
Proof. vm_compute. repeat split; discriminate. Qed.

(** C6, amended: when the registry pointer names a session whose metadata
    file is missing, [requirements-status] reports that the metadata file
    was not found, flagged as an error, and changes nothing: the pointer
    stays in place.  Both builds behave so. *)
Theorem status_missing_metadata_reports_error
    (now : string) (reply : option ElicitResult) (cur : string) (st : Store) :
  getCurrentRequirement st = Some cur → cur ≠ "" →
  read_metadata cur st = None →
  requirements_status now reply st = (MetadataMissing cur, st)
  ∧ FirstBuild.requirements_status st = (MetadataMissing cur, st)
  ∧ isError (MetadataMissing cur) = true
  ∧ getCurrentRequirement (requirements_status now reply st).2 = Some cur.
Proof.
  intros Hcur Hne Hmeta.
  unfold requirements_status, FirstBuild.requirements_status.
  rewrite Hcur, (truthy_pointer cur Hne). simpl.
  by rewrite Hmeta.
Qed.

Lemma status_missing_metadata_reports_error_witness :
  requirements_status "2025-07-14T09:10:00.000Z" accept_yes dangling_store
  = (MetadataMissing "2025-07-14-0905-add-dark-mode", dangling_store).
Proof.
  apply (status_missing_metadata_reports_error
           "2025-07-14T09:10:00.000Z" accept_yes
           "2025-07-14-0905-add-dark-mode" dangling_store).
  - reflexivity.
  - apply String.eqb_neq. reflexivity.
  - vm_compute; reflexivity.
Defined.

(** ** Settings *)

Lemma loadSettings_saveSettings (s : Settings) (st : Store) :
  loadSettings (saveSettings s st) = s.
Proof. by destruct s. Qed.

(** C7, as the specification states it, fails: [saveSettings] persists a
    record whose counts are 0 and 21, and a count left out of a
    [requirements-settings] call is saved again from the file without
    being checked. *)
Lemma saveSettings_does_not_validate :
  mcp_settings_json
    (saveSettings {| discoveryQuestions := 0; expertQuestions := 21 |} empty_store)
  = Some (Parsed (Some 0) (Some 21))
  ∧ requirements_settings SettingsAction.set (Some 4) None
      (set_mcp_settings_json (Some (Parsed (Some 3) (Some 50))) empty_store)
    = (SettingsUpdated {| discoveryQuestions := 4; expertQuestions := 50 |},
       set_mcp_settings_json (Some (Parsed (Some 4) (Some 50))) empty_store).
Proof. split; reflexivity. Qed.

(** C7, amended: the range check is the input schema of the
    [requirements-settings] tool.  A call that supplies a count outside
    [1, 20] is rejected before the handler runs and persists nothing; a
    call that passes the schema saves the supplied counts, and takes a
    count that was not supplied from the stored settings as it is;
    [saveSettings] itself persists any record it is given. *)
Theorem settings_range_checked_by_schema
    (action : SettingsAction.t) (dq eq : option Z) (st : Store) :
  (schema_count dq && schema_count eq = false →
   requirements_settings action dq eq st = (InvalidParams, st))
  ∧ (schema_count dq && schema_count eq = true →
     requirements_settings SettingsAction.set dq eq st
     = (SettingsUpdated
          {| discoveryQuestions := default (discoveryQuestions (loadSettings st)) dq;
             expertQuestions := default (expertQuestions (loadSettings st)) eq |},
        saveSettings
          {| discoveryQuestions := default (discoveryQuestions (loadSettings st)) dq;
             expertQuestions := default (expertQuestions (loadSettings st)) eq |}
          st))
  ∧ (∀ s : Settings,
       mcp_settings_json (saveSettings s st)
       = Some (Parsed (Some (discoveryQuestions s)) (Some (expertQuestions s)))).
Proof.
  unfold requirements_settings.
  split; [|split].
  - by intros ->.
  - by intros ->.
  - done.
Qed.

Lemma settings_range_checked_by_schema_witness :
  requirements_settings SettingsAction.set (Some 0) (Some 5) empty_store
  = (InvalidParams, empty_store)
  ∧ requirements_settings SettingsAction.set (Some 3) None empty_store
    = (SettingsUpdated {| discoveryQuestions := 3; expertQuestions := 5 |},
       saveSettings {| discoveryQuestions := 3; expertQuestions := 5 |} empty_store).
Proof.
  split.
  - apply (settings_range_checked_by_schema
             SettingsAction.set (Some 0) (Some 5) empty_store).
    reflexivity.
  - apply (settings_range_checked_by_schema
             SettingsAction.set (Some 3) None empty_store).
    reflexivity.
Defined.

(** C8: whatever [.mcp-settings.json] holds (nothing, an unparsable text,
    a partial or a full record), setting only [discoveryQuestions] to 3
    and then reading the settings returns [discoveryQuestions = 3] and
    the [expertQuestions] that a read before the update returns. *)
Theorem settings_set_get_roundtrip (st : Store) :
  let prior := loadSettings st in
  let st' := (requirements_settings SettingsAction.set (Some 3) None st).2 in
  requirements_settings SettingsAction.get None None st = (CurrentSettings prior, st)
  ∧ requirements_settings SettingsAction.get None None st'
    = (CurrentSettings
         {| discoveryQuestions := 3; expertQuestions := expertQuestions prior |},
       st').
Proof. split; reflexivity. Qed.

(** ** Files of a session folder *)

Lemma lookup_write_in (name j : string) (w : Folder → Folder) (st : Store) :
  folders (write_in name w st) !! j
  = if decide (name = j) then w <$> folders st !! name else folders st !! j.
Proof. unfold write_in; simpl. apply lookup_alter. Qed.

Lemma read_metadata_write_in (name j : string) (w : Folder → Folder) (st : Store) :
  read_metadata j (write_in name w st)
  = if decide (name = j)
    then folders st !! name ≫= λ f, metadata_json (w f)
    else read_metadata j st.
Proof.
  unfold read_metadata. rewrite lookup_write_in.
  case_decide; [|done]. by destruct (folders st !! name).
Qed.

(** Writing a file other than [metadata.json] leaves every metadata file
    as it was. *)
Lemma read_metadata_write_other (name j : string) (w : Folder → Folder)
    (st : Store) :
  (∀ f, metadata_json (w f) = metadata_json f) →
  read_metadata j (write_in name w st) = read_metadata j st.
Proof.
  intros Hw. rewrite read_metadata_write_in. case_decide as Hj; [|done].
  subst j. unfold read_metadata. destruct (folders st !! name); simpl; [|done].
  apply Hw.
Qed.

(** Writing [metadata.json] into an existing folder. *)
Lemma read_metadata_write_metadata (name j : string) (m : Metadata) (st : Store) :
  is_Some (folders st !! name) →
  read_metadata j (write_in name (write_metadata m) st)
  = if decide (name = j) then Some m else read_metadata j st.
Proof.
  intros [f Hf]. rewrite read_metadata_write_in.
  case_decide; [|done]. by rewrite Hf.
Qed.

Lemma folder_of_metadata (name : string) (m : Metadata) (st : Store) :
  read_metadata name st = Some m → is_Some (folders st !! name).
Proof.
  unfold read_metadata. destruct (folders st !! name); [eauto | done].
Qed.

Lemma is_Some_write_in (name j : string) (w : Folder → Folder) (st : Store) :
  is_Some (folders st !! j) → is_Some (folders (write_in name w st) !! j).
Proof.
  intros [f Hf]. rewrite lookup_write_in. case_decide as Hj; [|eauto].
  subst j. rewrite Hf. simpl. eauto.
Qed.

Lemma lookup_ensureDir (name : string) (st : Store) :
  folders (ensureDir name st) !! name
  = Some (default empty_folder (folders st !! name)).
Proof.
  unfold ensureDir. destruct (folders st !! name) as [f|] eqn:Hf; simpl.
  - done.
  - apply lookup_insert_eq.
Qed.

Lemma lookup_ensureDir_ne (name j : string) (st : Store) :
  name ≠ j → folders (ensureDir name st) !! j = folders st !! j.
Proof.
  intros Hne. unfold ensureDir. destruct (folders st !! name); simpl; [done|].
  by rewrite lookup_insert_ne.
Qed.

Lemma loadSettings_ensureDir (name : string) (st : Store) :
  loadSettings (ensureDir name st) = loadSettings st.
Proof. unfold ensureDir. by destruct (folders st !! name). Qed.

(** ** Starting a session *)

Lemma start_folder (now request : string) (st : Store) :
  Js.truthy (getCurrentRequirement st) = false →
  let folderName := createTimestampFolder now request in
  let result := requirements_start now request st in
  result.1 = Started folderName (Some (loadSettings st))
  ∧ getCurrentRequirement result.2 = Some folderName
  ∧ mcp_settings_json result.2 = mcp_settings_json st
  ∧ index_md result.2 = index_md st
  ∧ folders result.2 !! folderName
    = Some (started_folder now request folderName (loadSettings st)
              (default empty_folder (folders st !! folderName)))
  ∧ ∀ j, folderName ≠ j → folders result.2 !! j = folders st !! j.
Proof.
  intros Hfalsy folderName result. subst result.
  unfold requirements_start. rewrite Hfalsy.
  fold folderName. rewrite loadSettings_ensureDir.
  cbn [fst snd]. repeat split.
  - unfold ensureDir. by destruct (folders st !! folderName).
  - unfold ensureDir. by destruct (folders st !! folderName).
  - rewrite !lookup_write_in. cbn [folders setCurrentRequirement set_current_requirement].
    rewrite !lookup_write_in.
    rewrite !decide_True by done.
    by rewrite lookup_ensureDir.
  - intros j Hj.
    rewrite !lookup_write_in. cbn [folders setCurrentRequirement set_current_requirement].
    rewrite !lookup_write_in.
    rewrite !decide_False by done.
    by apply lookup_ensureDir_ne.
Qed.

Lemma first_build_start_folder (now request : string) (st : Store) :
  Js.truthy (getCurrentRequirement st) = false →
  let folderName := createTimestampFolder now request in
  let result := FirstBuild.requirements_start now request st in
  result.1 = Started folderName None
  ∧ getCurrentRequirement result.2 = Some folderName
  ∧ folders result.2 !! folderName
    = Some (first_build_started_folder now request folderName
              (default empty_folder (folders st !! folderName)))
  ∧ ∀ j, folderName ≠ j → folders result.2 !! j = folders st !! j.
Proof.
  intros Hfalsy folderName result. subst result.
  unfold FirstBuild.requirements_start. rewrite Hfalsy.
  fold folderName. cbn [fst snd]. repeat split.
  - cbn [folders setCurrentRequirement set_current_requirement].
    rewrite !lookup_write_in, !decide_True by done.
    by rewrite lookup_ensureDir.
  - intros j Hj.
    cbn [folders setCurrentRequirement set_current_requirement].
    rewrite !lookup_write_in, !decide_False by done.
    by apply lookup_ensureDir_ne.
Qed.

(** C4, as the specification states it, fails on the first build of the
    server (the metadata literal at lines 97-113): it has no settings, and
    a session it starts gets the detail total 0, not the [expertQuestions]
    of the settings. *)
Lemma first_build_detail_total_not_from_settings :
  ¬ (∀ (now request : string) (st : Store),
       Js.truthy (getCurrentRequirement st) = false →
       ∃ m, active_metadata (FirstBuild.requirements_start now request st).2 = Some m
            ∧ total (detail (progress m)) = expertQuestions (loadSettings st)).
Proof.
  intros H.
  destruct (H "2025-07-14T09:05:33.120Z" "Add dark mode" empty_store eq_refl)
    as (m & Hm & Htotal).
  vm_compute in Hm. injection Hm as <-. vm_compute in Htotal. discriminate.
Qed.

(** C4, amended: every successful [requirements-start] creates the session
    folder, writes the initial request record and the metadata record with
    [phase = discovery], [status = active] and both [answered] counters 0,
    and registers the folder as the active session.  In the build with
    settings the discovery total is [settings.discoveryQuestions] and the
    detail total is [settings.expertQuestions], for the settings loaded at
    the call; in the first build the totals are the constants 5 and 0. *)
Theorem start_initialises_session (now request : string) (st : Store) :
  Js.truthy (getCurrentRequirement st) = false →
  let folderName := createTimestampFolder now request in
  let settings := loadSettings st in
  (∃ st' f m,
      requirements_start now request st = (Started folderName (Some settings), st')
      ∧ getCurrentRequirement st' = Some folderName
      ∧ folders st' !! folderName = Some f
      ∧ initial_request_md f = Some (initial_request now request folderName)
      ∧ metadata_json f = Some m
      ∧ phase m = Phase.discovery
      ∧ status m = Status.active
      ∧ progress m
        = {| discovery := {| answered := 0; total := discoveryQuestions settings |};
             detail := {| answered := 0; total := expertQuestions settings |} |})
  ∧ (∃ st' f m,
      FirstBuild.requirements_start now request st = (Started folderName None, st')
      ∧ getCurrentRequirement st' = Some folderName
      ∧ folders st' !! folderName = Some f
      ∧ initial_request_md f = Some (initial_request now request folderName)
      ∧ metadata_json f = Some m
      ∧ phase m = Phase.discovery
      ∧ status m = Status.active
      ∧ progress m
        = {| discovery := {| answered := 0; total := 5 |};
             detail := {| answered := 0; total := 0 |} |}).
Proof.
  intros Hfalsy folderName settings. split.
  - destruct (start_folder now request st Hfalsy) as (Hr & Hcur & _ & _ & Hf & _).
    fold folderName in Hr, Hcur, Hf.
    destruct (requirements_start now request st) as [r st'] eqn:Hstart.
    simpl in Hr, Hcur, Hf. subst r.
    eexists st', _, _. repeat split; [exact Hcur | exact Hf | done..].
  - destruct (first_build_start_folder now request st Hfalsy) as (Hr & Hcur & Hf & _).
    fold folderName in Hr, Hcur, Hf.
    destruct (FirstBuild.requirements_start now request st) as [r st'] eqn:Hstart.
    simpl in Hr, Hcur, Hf. subst r.
    eexists st', _, _. repeat split; [exact Hcur | exact Hf | done..].
Qed.

Lemma start_initialises_session_witness :
  ∃ st' f m,
    requirements_start "2025-07-14T09:05:33.120Z" "Add dark mode" empty_store
    = (Started "2025-07-14-0905-add-dark-mode" (Some DEFAULT_SETTINGS), st')
    ∧ getCurrentRequirement st' = Some "2025-07-14-0905-add-dark-mode"
    ∧ folders st' !! "2025-07-14-0905-add-dark-mode" = Some f
    ∧ initial_request_md f
      = Some (initial_request "2025-07-14T09:05:33.120Z" "Add dark mode"
                "2025-07-14-0905-add-dark-mode")
    ∧ metadata_json f = Some m
    ∧ phase m = Phase.discovery
    ∧ status m = Status.active
    ∧ progress m
      = {| discovery := {| answered := 0; total := 5 |};
           detail := {| answered := 0; total := 5 |} |}.
Proof.
  apply (start_initialises_session
           "2025-07-14T09:05:33.120Z" "Add dark mode" empty_store).
  reflexivity.
Defined.

(** ** One call of requirements-status *)

Ltac read_after_write :=
  repeat first
    [ rewrite read_metadata_write_metadata
        by (repeat apply is_Some_write_in; eauto using folder_of_metadata)
    | rewrite read_metadata_write_other by done ].

(** The handler never touches the pointer, the settings or the index. *)
Lemma status_keeps_registry (now : string) (reply : option ElicitResult)
    (st : Store) :
  let st' := (requirements_status now reply st).2 in
  current_requirement st' = current_requirement st
  ∧ mcp_settings_json st' = mcp_settings_json st
  ∧ index_md st' = index_md st.
Proof.
  unfold requirements_status, answer_discovery, leave_context, answer_detail.
  repeat (simpl; case_match); done.
Qed.

(** Every metadata file is moved by a [status_step]: the file of the
    active session by the branch that ran, the others not at all. *)
Lemma status_steps_metadata (now : string) (reply : option ElicitResult)
    (st : Store) (j : string) (m : Metadata) :
  read_metadata j st = Some m →
  ∃ m', read_metadata j (requirements_status now reply st).2 = Some m'
        ∧ status_step m m'.
Proof.
  intros Hj. unfold requirements_status.
  destruct (Js.truthy (getCurrentRequirement st)); simpl;
    [|eauto using step_none].
  set (cur := default "" (getCurrentRequirement st)).
  destruct (read_metadata cur st) as [metadata|] eqn:Hcur;
    [|eauto using step_none].
  destruct (bool_decide (phase metadata = Phase.discovery)
            && (answered (discovery (progress metadata))
                <? total (discovery (progress metadata)))) eqn:Hdisc.
  { apply andb_prop in Hdisc as [Hphase%bool_decide_eq_true Hlt%Z.ltb_lt].
    cbv iota. unfold answer_discovery.
    destruct (Js.index _ _) as [q|]; [|eauto using step_none].
    destruct (askQuestion _ _) as [answer|]; [|eauto using step_none].
    pose proof (step_discovery metadata now Hphase Hlt) as Hstep.
    cbv zeta in Hstep |- *.
    destruct (_ >=? _); simpl; read_after_write;
      (case_decide as Hname;
         [rewrite <- Hname, Hcur in Hj; injection Hj as <- | ];
       eauto using step_none). }
  destruct (bool_decide (phase metadata = Phase.context)) eqn:Hctx.
  { apply bool_decide_eq_true in Hctx. clear Hdisc.
    cbv iota. unfold leave_context; simpl. read_after_write.
    case_decide as Hname; [|eauto using step_none].
    rewrite <- Hname, Hcur in Hj; injection Hj as <-.
    eauto using step_context. }
  destruct (bool_decide (phase metadata = Phase.detail)
            && (answered (detail (progress metadata))
                <? total (detail (progress metadata)))) eqn:Hdet;
    cbv iota; [|eauto using step_none].
  apply andb_prop in Hdet as [Hphase%bool_decide_eq_true Hlt%Z.ltb_lt].
  clear Hdisc Hctx. unfold answer_detail.
  destruct (Js.index _ _) as [q|]; [|eauto using step_none].
  destruct (askQuestion _ _) as [answer|]; [|eauto using step_none].
  pose proof (step_detail metadata now Hphase Hlt) as Hstep.
  cbv zeta in Hstep |- *.
  destruct (_ >=? _); simpl; read_after_write;
    (case_decide as Hname;
       [rewrite <- Hname, Hcur in Hj; injection Hj as <- | ];
     eauto using step_none).
Qed.

Lemma status_creates_no_metadata (now : string) (reply : option ElicitResult)
    (st : Store) (j : string) :
  read_metadata j st = None →
  read_metadata j (requirements_status now reply st).2 = None.
Proof.
  intros Hj. unfold requirements_status.
  destruct (Js.truthy (getCurrentRequirement st)); simpl; [|done].
  set (cur := default "" (getCurrentRequirement st)).
  destruct (read_metadata cur st) as [metadata|] eqn:Hcur; [|done].
  assert (cur ≠ j) as Hne by congruence.
  unfold answer_discovery, leave_context, answer_detail.
  repeat (simpl; case_match); try done;
    cbn [snd]; read_after_write; by rewrite ?decide_False by done.
Qed.

(** ** What a step does to counters and phase *)

Lemma status_step_answered_le (m m' : Metadata) :
  status_step m m' → answered_le m m'.
Proof.
  unfold answered_le.
  intros [ | now Hphase Hlt m1 | now Hphase | now Hphase Hlt m1];
    try subst m1; try destruct (_ >=? _); simpl; lia.
Qed.

Lemma status_step_totals (m m' : Metadata) :
  status_step m m' →
  total (discovery (progress m')) = total (discovery (progress m))
  ∧ total (detail (progress m')) = total (detail (progress m)).
Proof.
  intros [ | now Hphase Hlt m1 | now Hphase | now Hphase Hlt m1];
    try subst m1; try destruct (_ >=? _); done.
Qed.

Lemma status_step_counters_ok (m m' : Metadata) :
  status_step m m' → counters_ok m → counters_ok m'.
Proof.
  unfold counters_ok.
  intros [ | now Hphase Hlt m1 | now Hphase | now Hphase Hlt m1];
    try subst m1; try destruct (_ >=? _); simpl; lia.
Qed.

(** A step keeps the phase or follows one edge of the chain. *)
Lemma status_step_phase (m m' : Metadata) :
  status_step m m' → phase m' = phase m ∨ phase_edge m m'.
Proof.
  intros [ | now Hphase Hlt m1 | now Hphase | now Hphase Hlt m1].
  - by left.
  - destruct (_ >=? _) eqn:Hge; [|by left].
    right. apply edge_discovery_context; [done..|].
    subst m1; simpl in *. lia.
  - right. by apply edge_context_detail.
  - destruct (_ >=? _) eqn:Hge; [|by left].
    right. apply edge_detail_complete; [done..|].
    subst m1; simpl in *. lia.
Qed.

Lemma answered_le_refl (m : Metadata) : answered_le m m.
Proof. unfold answered_le; lia. Qed.

Lemma answered_le_trans (m1 m2 m3 : Metadata) :
  answered_le m1 m2 → answered_le m2 m3 → answered_le m1 m3.
Proof. unfold answered_le; lia. Qed.

(** ** Sequences of advance calls *)

Lemma advance_active_metadata (input : string * option ElicitResult)
    (st : Store) (m : Metadata) :
  active_metadata st = Some m →
  ∃ m', active_metadata (advance input st) = Some m' ∧ status_step m m'.
Proof.
  unfold active_metadata, advance, getCurrentRequirement.
  destruct (status_keeps_registry input.1 input.2 st) as (-> & _ & _).
  destruct (current_requirement st) as [cur|]; simpl; [|done].
  apply status_steps_metadata.
Qed.

Lemma advance_all_snoc (inputs : list (string * option ElicitResult))
    (input : string * option ElicitResult) (st : Store) :
  advance_all (inputs ++ [input]) st = advance input (advance_all inputs st).
Proof. unfold advance_all. by rewrite foldl_snoc. Qed.

Lemma advance_all_active_metadata
    (inputs : list (string * option ElicitResult)) (st : Store) (m : Metadata) :
  active_metadata st = Some m →
  ∃ m', active_metadata (advance_all inputs st) = Some m'
        ∧ answered_le m m'
        ∧ (counters_ok m → counters_ok m')
        ∧ total (discovery (progress m')) = total (discovery (progress m))
        ∧ total (detail (progress m')) = total (detail (progress m)).
Proof.
  induction inputs as [|input inputs IH] using rev_ind; intros Hm.
  - exists m. eauto using answered_le_refl.
  - destruct (IH Hm) as (m1 & Hm1 & Hle & Hok & Htd & Htt).
    destruct (advance_active_metadata input _ _ Hm1) as (m2 & Hm2 & Hstep).
    exists m2. rewrite advance_all_snoc.
    destruct (status_step_totals _ _ Hstep) as [Hd Ht].
    repeat split.
    + done.
    + eapply answered_le_trans; [done|]. by apply status_step_answered_le.
    + eapply answered_le_trans; [done|]. by apply status_step_answered_le.
    + eapply status_step_counters_ok; [done|]. by apply Hok.
    + eapply status_step_counters_ok; [done|]. by apply Hok.
    + congruence.
    + congruence.
Qed.

(** C1: take a session whose counters satisfy [answered ≤ total] and any
    sequence of [requirements-status] calls, with any clock readings and
    any replies of the client.  The session stays the active one, and from
    each call to the next neither [progress.discovery.answered] nor
    [progress.detail.answered] decreases, while each stays at most its
    total, which never changes. *)
Theorem progress_counters_monotone_bounded
    (st : Store) (m : Metadata)
    (inputs : list (string * option ElicitResult))
    (input : string * option ElicitResult) :
  active_metadata st = Some m → counters_ok m →
  ∃ m1 m2,
    active_metadata (advance_all inputs st) = Some m1
    ∧ active_metadata (advance input (advance_all inputs st)) = Some m2
    ∧ answered_le m m1 ∧ answered_le m1 m2
    ∧ counters_ok m1 ∧ counters_ok m2
    ∧ total (discovery (progress m2)) = total (discovery (progress m))
    ∧ total (detail (progress m2)) = total (detail (progress m)).
Proof.
  intros Hm Hok.
  destruct (advance_all_active_metadata inputs st m Hm)
    as (m1 & Hm1 & Hle & Hok1 & Htd & Htt).
  destruct (advance_active_metadata input _ _ Hm1) as (m2 & Hm2 & Hstep).
  destruct (status_step_totals _ _ Hstep) as [Hd Ht].
  exists m1, m2. split; [done|]. split; [done|]. split; [done|].
  split; [by apply status_step_answered_le|].
  split; [by apply Hok1|].
  split; [eapply status_step_counters_ok; [done | by apply Hok1]|].
  split; congruence.
Qed.

Lemma progress_counters_monotone_bounded_witness :
  ∃ m1 m2,
    active_metadata
      (advance_all
         [("2025-07-14T09:06:00.000Z", accept_yes);
          ("2025-07-14T09:07:00.000Z", None);
          ("2025-07-14T09:08:00.000Z", accept_yes)] dark_mode_store) = Some m1
    ∧ active_metadata
        (advance ("2025-07-14T09:09:00.000Z", accept_yes)
           (advance_all
              [("2025-07-14T09:06:00.000Z", accept_yes);
               ("2025-07-14T09:07:00.000Z", None);
               ("2025-07-14T09:08:00.000Z", accept_yes)] dark_mode_store))
      = Some m2
    ∧ answered_le
        (initial_metadata "2025-07-14T09:05:33.120Z"
           "2025-07-14-0905-add-dark-mode" DEFAULT_SETTINGS) m1
    ∧ answered_le m1 m2
    ∧ counters_ok m1 ∧ counters_ok m2
    ∧ total (discovery (progress m2)) = 5
    ∧ total (detail (progress m2)) = 5.
Proof.
  apply (progress_counters_monotone_bounded dark_mode_store
           (initial_metadata "2025-07-14T09:05:33.120Z"
              "2025-07-14-0905-add-dark-mode" DEFAULT_SETTINGS)).
  - vm_compute; reflexivity.
  - unfold counters_ok; simpl; lia.
Defined.

(** The scenario of the specification: five answers lead to [context],
    one more call to [detail], five more answers to [complete]. *)
Example advance_scenario :
  let t := "2025-07-14T09:06:00.000Z" in
  (phase <$> active_metadata
     (advance_all (replicate 5 (t, accept_yes)) dark_mode_store),
   phase <$> active_metadata
     (advance_all (replicate 6 (t, accept_yes)) dark_mode_store),
   phase <$> active_metadata
     (advance_all (replicate 10 (t, accept_yes)) dark_mode_store),
   (λ m, (phase m, status m, progress m)) <$> active_metadata
     (advance_all (replicate 11 (t, accept_yes)) dark_mode_store))
  = (Some Phase.context, Some Phase.detail, Some Phase.detail,
     Some (Phase.complete, Status.completed,
           {| discovery := {| answered := 5; total := 5 |};
              detail := {| answered := 5; total := 5 |} |})).
Proof. vm_compute. reflexivity. Qed.

(** ** The other tools *)

Lemma read_metadata_set_index (b : bool) (v : option string) (j : string)
    (st : Store) :
  read_metadata j (if b then set_index_md v st else st) = read_metadata j st.
Proof. by destruct b. Qed.

Lemma read_metadata_clear (j : string) (st : Store) :
  read_metadata j (clearCurrentRequirement st) = read_metadata j st.
Proof. done. Qed.

(** The metadata update of [requirements-end] for [complete] and
    [incomplete]: only an existing metadata file is rewritten. *)
Lemma end_update_metadata (upd : Metadata → Metadata) (cur : string)
    (st : Store) (j : string) :
  read_metadata j
    match read_metadata cur st with
    | Some metadata => write_in cur (write_metadata (upd metadata)) st
    | None => st
    end
  = if decide (cur = j) then upd <$> read_metadata j st
    else read_metadata j st.
Proof.
  destruct (read_metadata cur st) as [metadata|] eqn:Hcur.
  - read_after_write. case_decide as Hname; [|done].
    by rewrite <- Hname, Hcur.
  - case_decide as Hname; [|done]. by rewrite <- Hname, Hcur.
Qed.

(** [requirements-end] removes the active session's metadata ([delete])
    or rewrites it with the same phase and progress; every other metadata
    file is left as it was. *)
Lemma end_metadata (now today : string) (action : EndAction.t) (st : Store)
    (j : string) (m : Metadata) :
  read_metadata j st = Some m →
  let st' := (requirements_end now today action st).2 in
  (read_metadata j st' = None ∧ action = EndAction.delete)
  ∨ (∃ m', read_metadata j st' = Some m'
           ∧ phase m' = phase m ∧ progress m' = progress m).
Proof.
  intros Hj. unfold requirements_end.
  destruct (Js.truthy (getCurrentRequirement st)); simpl; [|eauto].
  set (cur := default "" (getCurrentRequirement st)).
  destruct action; cbn [snd].
  1, 2: right; rewrite read_metadata_clear, read_metadata_set_index,
          end_update_metadata, Hj;
        case_decide; simpl; eauto.
  rewrite read_metadata_clear. unfold read_metadata in *; simpl.
  destruct (decide (cur = j)) as [->|Hne].
  - left. by rewrite lookup_delete_eq.
  - right. rewrite lookup_delete_ne by done. eauto.
Qed.

Lemma end_creates_no_metadata (now today : string) (action : EndAction.t)
    (st : Store) (j : string) :
  read_metadata j st = None →
  read_metadata j (requirements_end now today action st).2 = None.
Proof.
  intros Hj. unfold requirements_end.
  destruct (Js.truthy (getCurrentRequirement st)); simpl; [|done].
  set (cur := default "" (getCurrentRequirement st)).
  destruct action; cbn [snd].
  1, 2: rewrite read_metadata_clear, read_metadata_set_index,
          end_update_metadata, Hj;
        by case_decide.
  rewrite read_metadata_clear. unfold read_metadata in *; simpl.
  destruct (decide (cur = j)) as [->|Hne].
  - by rewrite lookup_delete_eq.
  - by rewrite lookup_delete_ne.
Qed.

Lemma end_keeps_settings (now today : string) (action : EndAction.t)
    (st : Store) :
  mcp_settings_json (requirements_end now today action st).2
  = mcp_settings_json st.
Proof.
  unfold requirements_end.
  repeat (simpl; case_match); done.
Qed.

Lemma settings_keeps_folders (action : SettingsAction.t) (dq eq : option Z)
    (st : Store) :
  folders (requirements_settings action dq eq st).2 = folders st.
Proof.
  unfold requirements_settings, settings_handler.
  by repeat (simpl; case_match).
Qed.

(** After a successful start the new folder holds the initial metadata
    and every other metadata file is as before. *)
Lemma start_metadata (now request : string) (st : Store) (j : string) :
  read_metadata j (requirements_start now request st).2
  = if Js.truthy (getCurrentRequirement st) then read_metadata j st
    else if decide (createTimestampFolder now request = j)
         then Some (initial_metadata now (createTimestampFolder now request)
                      (loadSettings st))
         else read_metadata j st.
Proof.
  destruct (Js.truthy (getCurrentRequirement st)) eqn:Hfalsy.
  - unfold requirements_start. by rewrite Hfalsy.
  - destruct (start_folder now request st Hfalsy) as (_ & _ & _ & _ & Hf & Hother).
    unfold read_metadata. case_decide as Hname.
    + subst j. by rewrite Hf.
    + by rewrite Hother.
Qed.

(** ** Phase transitions *)

(** C2, as the specification states it, fails: a phase edge outside the
    chain is reachable.  From an empty [requirements/] directory, a
    session is started, brought to [detail] and ended; a
    [requirements-start] in the same minute with the same request text
    gets the same folder name and overwrites the metadata there, so the
    phase recorded in that folder goes from [detail] back to
    [discovery]. *)
Lemma restart_resets_phase :
  let name := "2025-07-14-0905-add-dark-mode" in
  let c := CallStart "2025-07-14T09:05:59.000Z" "Add dark mode" in
  phase <$> read_metadata name ended_in_detail_store = Some Phase.detail
  ∧ phase <$> read_metadata name (handle c ended_in_detail_store).2
    = Some Phase.discovery
  ∧ ¬ (∀ (c : Call) (st : Store) (name : string) (m m' : Metadata),
         read_metadata name st = Some m →
         read_metadata name (handle c st).2 = Some m' →
         phase m' = phase m ∨ phase_edge m m').
Proof.
  cbv zeta. split; [vm_compute; reflexivity|].
  split; [vm_compute; reflexivity|].
  intros Hchain.
  destruct (read_metadata "2025-07-14-0905-add-dark-mode" ended_in_detail_store)
    as [m|] eqn:Hm; [|vm_compute in Hm; discriminate Hm].
  destruct (read_metadata "2025-07-14-0905-add-dark-mode"
              (handle (CallStart "2025-07-14T09:05:59.000Z" "Add dark mode")
                 ended_in_detail_store).2)
    as [m'|] eqn:Hm'; [|vm_compute in Hm'; discriminate Hm'].
  assert (phase m = Phase.detail) as Hphase.
  { vm_compute in Hm. by injection Hm as <-. }
  assert (phase m' = Phase.discovery) as Hphase'.
  { vm_compute in Hm'. by injection Hm' as <-. }
  destruct (Hchain _ _ _ _ _ Hm Hm') as [Hstay|[H1 H2 _|H1 H2|H1 H2 _]];
    congruence.
Qed.

(** C2, amended: whatever tool is called on whatever store, the phase
    recorded for a session either stays, or moves along one edge of
    [discovery → context → detail → complete]; the edge out of [discovery]
    is taken only into a state with [discovery.answered = discovery.total],
    the edge out of [detail] only into a state with
    [detail.answered = detail.total].  The edge out of [context] has no
    guard: a [requirements-status] call on an active session in [context]
    always moves it to [detail].  There are two exceptions, neither made
    by [requirements-status]: [requirements-end] with [delete] removes
    the metadata, and a [requirements-start] whose folder name is that of
    an existing session folder replaces the metadata there by that of a
    new session, so the phase recorded in that folder becomes
    [discovery] whatever it was. *)
Theorem phase_follows_chain (c : Call) (st : Store) (name : string)
    (m : Metadata) :
  read_metadata name st = Some m →
  let st' := (handle c st).2 in
  ((∃ m', read_metadata name st' = Some m'
          ∧ (phase m' = phase m ∨ phase_edge m m'))
   ∨ (read_metadata name st' = None
      ∧ ∃ now today, c = CallEnd now today EndAction.delete)
   ∨ (∃ now request,
        c = CallStart now request
        ∧ name = createTimestampFolder now request
        ∧ read_metadata name st'
          = Some (initial_metadata now name (loadSettings st))))
  ∧ (getCurrentRequirement st = Some name → name ≠ "" →
     phase m = Phase.context →
     ∀ now reply,
       ∃ m', read_metadata name (requirements_status now reply st).2 = Some m'
             ∧ phase m' = Phase.detail).
Proof.
  intros Hm st'. split.
  - subst st'. destruct c as [now request|now reply|now today action|action dq eq];
      cbn [handle].
    + rewrite start_metadata.
      destruct (Js.truthy _); [left; eauto|].
      case_decide as Hname; [|left; eauto].
      right; right. exists now, request. by subst name.
    + left.
      destruct (status_steps_metadata now reply st name m Hm) as (m' & Hm' & Hstep).
      exists m'. split; [done|]. by apply status_step_phase.
    + destruct (end_metadata now today action st name m Hm)
        as [[Hnone ->]|(m' & Hm' & Hphase & _)].
      * right; left. eauto.
      * left. eauto.
    + left. exists m. split; [|by left].
      unfold read_metadata. by rewrite settings_keeps_folders.
  - intros Hcur Hne Hctx now reply.
    unfold requirements_status.
    rewrite Hcur, (truthy_pointer name Hne). cbn [negb from_option Datatypes.id].
    rewrite Hm, Hctx.
    rewrite bool_decide_eq_false_2 by done. cbn [andb].
    rewrite bool_decide_eq_true_2 by done.
    unfold leave_context. cbn [snd]. read_after_write.
    rewrite decide_True by done. eauto.
Qed.

Lemma phase_follows_chain_witness :
  ∃ m', read_metadata "2025-07-14-0905-add-dark-mode"
          (requirements_status "2025-07-14T09:12:00.000Z" None context_store).2
        = Some m'
        ∧ phase m' = Phase.detail.
Proof.
  eapply (phase_follows_chain
            (CallStatus "2025-07-14T09:12:00.000Z" None) context_store
            "2025-07-14-0905-add-dark-mode").
  - vm_compute; reflexivity.
  - vm_compute; reflexivity.
  - apply String.eqb_neq. reflexivity.
  - reflexivity.
Defined.

(** Along any sequence of [requirements-status] calls the phase of the
    active session never moves back. *)
Lemma status_step_phase_rank (m m' : Metadata) :
  status_step m m' → (phase_rank (phase m) ≤ phase_rank (phase m'))%nat.
Proof.
  intros [Heq|[Hm Hm' _|Hm Hm'|Hm Hm' _]]%status_step_phase;
    rewrite ?Heq, ?Hm, ?Hm'; simpl; lia.
Qed.

Lemma advance_all_phase_rank (inputs : list (string * option ElicitResult))
    (st : Store) (m : Metadata) :
  active_metadata st = Some m →
  ∃ m', active_metadata (advance_all inputs st) = Some m'
        ∧ (phase_rank (phase m) ≤ phase_rank (phase m'))%nat.
Proof.
  induction inputs as [|input inputs IH] using rev_ind; intros Hm.
  - exists m. eauto.
  - destruct (IH Hm) as (m1 & Hm1 & Hle).
    destruct (advance_active_metadata input _ _ Hm1) as (m2 & Hm2 & Hstep).
    exists m2. rewrite advance_all_snoc. split; [done|].
    apply status_step_phase_rank in Hstep. lia.
Qed.

(** ** Stores reached through the tools *)

Lemma schema_count_default (v : option Z) (d : Z) :
  schema_count v = true → 1 ≤ d ≤ 20 → 1 ≤ default d v ≤ 20.
Proof.
  destruct v as [n|]; simpl; [|done].
  intros [H1%Z.leb_le H2%Z.leb_le]%andb_prop _. lia.
Qed.

Lemma loadSettings_in_range (st : Store) :
  settings_file_ok st →
  1 ≤ discoveryQuestions (loadSettings st) ≤ 20
  ∧ 1 ≤ expertQuestions (loadSettings st) ≤ 20.
Proof.
  unfold settings_file_ok, loadSettings.
  destruct (mcp_settings_json st) as [[|dq eq]|]; simpl; try lia.
  intros [Hdq Heq]%andb_prop.
  split; by apply schema_count_default.
Qed.

Lemma handle_settings_file_ok (c : Call) (st : Store) :
  settings_file_ok st → settings_file_ok (handle c st).2.
Proof.
  intros Hok. unfold settings_file_ok.
  destruct c as [now request|now reply|now today action|action dq eq];
    cbn [handle].
  - destruct (Js.truthy (getCurrentRequirement st)) eqn:Hfalsy.
    + unfold requirements_start. by rewrite Hfalsy.
    + destruct (start_folder now request st Hfalsy) as (_ & _ & -> & _). done.
  - destruct (status_keeps_registry now reply st) as (_ & -> & _). done.
  - by rewrite end_keeps_settings.
  - unfold requirements_settings.
    destruct (schema_count dq && schema_count eq) eqn:Hschema; [|done].
    apply andb_prop in Hschema as [Hdq Heq].
    destruct action; [done|]. simpl.
    destruct (loadSettings_in_range st Hok) as [Hd He].
    pose proof (schema_count_default dq _ Hdq Hd).
    pose proof (schema_count_default eq _ Heq He).
    apply andb_true_intro; split; apply andb_true_intro; split;
      apply Z.leb_le; lia.
Qed.

Lemma initial_metadata_counters_ok (now folderName : string) (s : Settings) :
  0 ≤ discoveryQuestions s → 0 ≤ expertQuestions s →
  counters_ok (initial_metadata now folderName s).
Proof. by unfold counters_ok. Qed.

Lemma handle_store_ok (c : Call) (st : Store) :
  store_ok st → store_ok (handle c st).2.
Proof.
  intros [Hfile Hsessions]. split; [by apply handle_settings_file_ok|].
  intros name m'.
  destruct c as [now request|now reply|now today action|action dq eq];
    cbn [handle].
  - rewrite start_metadata.
    destruct (Js.truthy _); [apply Hsessions|].
    case_decide; [|apply Hsessions].
    intros [= <-]. destruct (loadSettings_in_range st Hfile).
    apply initial_metadata_counters_ok; lia.
  - destruct (read_metadata name st) as [m|] eqn:Hm.
    + destruct (status_steps_metadata now reply st name m Hm)
        as (m'' & -> & Hstep).
      intros [= <-]. eapply status_step_counters_ok; eauto.
    + by rewrite status_creates_no_metadata.
  - destruct (read_metadata name st) as [m|] eqn:Hm.
    + destruct (end_metadata now today action st name m Hm)
        as [[-> _]|(m'' & -> & _ & Hprogress)]; [done|].
      intros [= <-]. unfold counters_ok. rewrite Hprogress.
      by apply (Hsessions name).
    + by rewrite end_creates_no_metadata.
  - unfold read_metadata. rewrite settings_keeps_folders. apply Hsessions.
Qed.

Lemma run_snoc (calls : list Call) (c : Call) (st : Store) :
  run (calls ++ [c]) st = (handle c (run calls st)).2.
Proof. unfold run. by rewrite foldl_snoc. Qed.

Lemma run_store_ok (calls : list Call) (st : Store) :
  store_ok st → store_ok (run calls st).
Proof.
  intros Hok. induction calls as [|c calls IH] using rev_ind; [done|].
  rewrite run_snoc. by apply handle_store_ok.
Qed.

Lemma empty_store_ok : store_ok empty_store.
Proof. split; [done|]. intros name m. by unfold read_metadata. Qed.

(** The hypothesis of C1 holds of every session the tools can produce:
    starting from an empty [requirements/] directory, after any sequence
    of tool calls every metadata file has [answered ≤ total] for both
    counters. *)
Lemma reachable_counters_ok (calls : list Call) (name : string) (m : Metadata) :
  read_metadata name (run calls empty_store) = Some m → counters_ok m.
Proof. apply (run_store_ok calls empty_store empty_store_ok). Qed.

(** ** The first build never advances a session *)

(** Its [requirements-status] only reports: no counter and no phase ever
    changes through it. *)

Lemma first_build_status_read_only (st : Store) :
  (FirstBuild.requirements_status st).2 = st.
Proof.
  unfold FirstBuild.requirements_status.
  by repeat (simpl; case_match).
Qed.

(** ** At most one active session *)

Lemma folder_name_not_empty (now name : string) :
  createTimestampFolder now name ≠ "".
Proof.
  unfold createTimestampFolder. by destruct (timestamp now).
Qed.

(** A session that was just started blocks the next start, in both
    builds. *)
Lemma started_session_blocks_start (now request now' request' : string)
    (st : Store) :
  Js.truthy (getCurrentRequirement st) = false →
  let folderName := createTimestampFolder now request in
  let st' := (requirements_start now request st).2 in
  let st'' := (FirstBuild.requirements_start now request st).2 in
  requirements_start now' request' st' = (SessionAlreadyActive folderName, st')
  ∧ FirstBuild.requirements_start now' request' st''
    = (SessionAlreadyActive folderName, st'').
Proof.
  intros Hfalsy folderName st' st''.
  destruct (start_folder now request st Hfalsy) as (_ & Hcur & _).
  destruct (first_build_start_folder now request st Hfalsy) as (_ & Hcur' & _).
  fold folderName st' in Hcur. fold folderName st'' in Hcur'.
  pose proof (truthy_pointer _ (folder_name_not_empty now request)) as Htruthy.
  fold folderName in Htruthy.
  unfold requirements_start, FirstBuild.requirements_start.
  by rewrite Hcur, Hcur', Htruthy.
Qed.

(** * Further properties of the code *)

(** ** The slug *)

Lemma folder_char_facts (c : ascii) :
  folder_char c = true →
  slug_char c = true ∧ Js.is_space c = false ∧ Js.lower_char c = c.
Proof.
  destruct c as [[] [] [] [] [] [] [] []]; vm_compute; intros H;
    first [discriminate H | repeat split].
Qed.

Lemma slug_char_not_space (c : ascii) :
  slug_char c = true → Js.is_space c = false → folder_char c = true.
Proof.
  unfold slug_char, folder_char. intros H Hsp.
  by rewrite Hsp, orb_false_r in H.
Qed.

Lemma strip_chars (s : string) : str_forall slug_char (SlugSpec.strip s) = true.
Proof.
  induction s as [|c s IH]; simpl; [done|].
  destruct (slug_char c) eqn:Hc; simpl; [by rewrite Hc|done].
Qed.

Lemma hyphenate_chars (b : bool) (s : string) :
  str_forall slug_char s = true →
  str_forall folder_char (SlugSpec.hyphenate b s) = true.
Proof.
  revert b; induction s as [|c s IH]; intros b; simpl; [done|].
  intros [Hc Hs]%andb_prop.
  destruct (Js.is_space c) eqn:Hsp.
  - destruct b; [by apply IH|].
    cbn [str_forall]. rewrite IH by done. reflexivity.
  - cbn [str_forall]. rewrite (slug_char_not_space c Hc Hsp), IH by done.
    reflexivity.
Qed.

Lemma str_take_forall (P : ascii → bool) (n : nat) (s : string) :
  str_forall P s = true → str_forall P (Js.str_take n s) = true.
Proof.
  revert s; induction n as [|n IH]; intros [|c s]; simpl; try done.
  intros [-> Hs]%andb_prop. simpl. auto.
Qed.

Lemma str_take_length_le (n : nat) (s : string) :
  (String.length (Js.str_take n s) ≤ n)%nat.
Proof.
  revert s; induction n as [|n IH]; intros [|c s]; simpl; try lia.
  specialize (IH s). lia.
Qed.

Lemma slug_as_take (name : string) :
  slug name
  = Js.str_take 30
      (SlugSpec.hyphenate false (SlugSpec.strip (SlugSpec.lowercase name))).
Proof. by rewrite slug_refines_spec, str_take_substring. Qed.

(** X1: whatever the request text, the slug has at most 30 characters
    and consists of lower-case letters, digits and hyphens only. *)
Theorem slug_is_folder_safe (name : string) :
  (String.length (slug name) ≤ 30)%nat
  ∧ str_forall folder_char (slug name) = true.
Proof.
  rewrite slug_as_take. split.
  - apply str_take_length_le.
  - apply str_take_forall, hyphenate_chars, strip_chars.
Qed.

Lemma lowercase_folder_chars (s : string) :
  str_forall folder_char s = true → SlugSpec.lowercase s = s.
Proof.
  induction s as [|c s IH]; simpl; [done|].
  intros [Hc Hs]%andb_prop.
  destruct (folder_char_facts c Hc) as (_ & _ & ->). by rewrite IH.
Qed.

Lemma strip_folder_chars (s : string) :
  str_forall folder_char s = true → SlugSpec.strip s = s.
Proof.
  induction s as [|c s IH]; simpl; [done|].
  intros [Hc Hs]%andb_prop.
  destruct (folder_char_facts c Hc) as (-> & _ & _). by rewrite IH.
Qed.

Lemma hyphenate_folder_chars (s : string) :
  str_forall folder_char s = true → SlugSpec.hyphenate false s = s.
Proof.
  induction s as [|c s IH]; simpl; [done|].
  intros [Hc Hs]%andb_prop.
  destruct (folder_char_facts c Hc) as (_ & -> & _). by rewrite IH.
Qed.

(** X2: deriving the slug of a slug changes nothing. *)
Theorem slug_idempotent (name : string) : slug (slug name) = slug name.
Proof.
  assert (str_forall folder_char (slug name) = true) as Hchars.
  { rewrite slug_as_take. apply str_take_forall, hyphenate_chars, strip_chars. }
  assert (String.length (slug name) ≤ 30)%nat as Hlen.
  { rewrite slug_as_take. apply str_take_length_le. }
  rewrite (slug_as_take (slug name)).
  rewrite lowercase_folder_chars, strip_folder_chars,
    hyphenate_folder_chars by done.
  by apply str_take_length.
Qed.

(** ** The timestamp of a folder name *)

Lemma append_assoc (a b c : string) : (a +:+ b) +:+ c = a +:+ (b +:+ c).
Proof. induction a as [|x a IH]; [done|]. by rewrite !append_cons, IH. Qed.

Lemma append_empty_r (s : string) : s +:+ "" = s.
Proof. induction s as [|x s IH]; [done|]. by rewrite append_cons, IH. Qed.

Lemma str_take_app (a b : string) (n : nat) :
  Js.str_take (String.length a + n) (a +:+ b) = a +:+ Js.str_take n b.
Proof.
  induction a as [|x a IH]; [done|].
  rewrite !append_cons. simpl. by rewrite IH.
Qed.

Lemma str_take_cons (n : nat) (c : ascii) (s : string) :
  Js.str_take (S n) (String c s) = String c (Js.str_take n s).
Proof. reflexivity. Qed.

Lemma replace_first_app (c : ascii) (r a b : string) :
  str_forall (not_char c) a = true →
  Js.replace_first c r (a +:+ String c b) = a +:+ r +:+ b.
Proof.
  induction a as [|x a IH]; simpl.
  - intros _. rewrite !append_empty_l. simpl. by rewrite decide_True.
  - intros [Hx Ha]%andb_prop. rewrite !append_cons. simpl.
    unfold not_char in Hx. apply negb_true_iff, bool_decide_eq_false in Hx.
    rewrite decide_False by done. by rewrite IH.
Qed.

Lemma str_forall_app (P : ascii → bool) (a b : string) :
  str_forall P (a +:+ b) = str_forall P a && str_forall P b.
Proof.
  induction a as [|x a IH]; [done|].
  rewrite append_cons. simpl. by rewrite IH, andb_assoc.
Qed.

(** X3: for a clock reading of the ISO shape [<date>T<hh>:<mm>...], with
    a date of 10 characters and two-character hours and minutes, the
    timestamp of the folder name is [<date>-<hh><mm>]: seconds and
    everything after them are dropped. *)
Theorem timestamp_of_iso_string (date hh mm rest : string) :
  String.length date = 10%nat → String.length hh = 2%nat →
  String.length mm = 2%nat →
  str_forall (not_char "T") date = true →
  str_forall (not_char ":") date = true →
  str_forall (not_char ":") hh = true →
  timestamp (date +:+ "T" +:+ hh +:+ ":" +:+ mm +:+ rest)
  = date +:+ "-" +:+ hh +:+ mm.
Proof.
  intros Hdate Hhh Hmm HdateT Hdatec Hhhc. unfold timestamp.
  change 16 with (Z.of_nat 16). rewrite str_slice_prefix.
  assert (Js.str_take 16 (date +:+ "T" +:+ hh +:+ ":" +:+ mm +:+ rest)
          = date +:+ String "T" (hh +:+ String ":" mm)) as ->.
  { replace 16%nat with (String.length date + 6)%nat by lia.
    rewrite str_take_app. f_equal.
    rewrite append_cons, append_empty_l, (str_take_cons 5). f_equal.
    replace 5%nat with (String.length hh + 3)%nat by lia.
    rewrite str_take_app. f_equal.
    rewrite append_cons, append_empty_l, (str_take_cons 2). f_equal.
    replace 2%nat with (String.length mm + 0)%nat by lia.
    rewrite str_take_app. by destruct rest; rewrite append_empty_r. }
  rewrite replace_first_app by done.
  rewrite append_cons, append_empty_l.
  change (date +:+ String "-" (hh +:+ String ":" mm))
    with (date +:+ (String "-" hh) +:+ String ":" mm).
  rewrite <- append_assoc.
  rewrite replace_first_app.
  - by rewrite append_empty_l, append_assoc.
  - rewrite str_forall_app. simpl. by rewrite Hdatec, Hhhc.
Qed.

Lemma timestamp_of_iso_string_witness :
  timestamp ("2025-07-14" +:+ "T" +:+ "09" +:+ ":" +:+ "05" +:+ ":33.120Z")
  = "2025-07-14" +:+ "-" +:+ "09" +:+ "05".
Proof.
  apply (timestamp_of_iso_string "2025-07-14" "09" "05" ":33.120Z");
    reflexivity.
Defined.

(** ** The session id *)

Lemma split_not_nil (sep : ascii) (s : string) : Js.split sep s ≠ [].
Proof.
  induction s as [|c s IH]; simpl; [done|].
  case_decide; [done|]. by destruct (Js.split sep s).
Qed.

Lemma concat_cons (sep x : string) (xs : list string) :
  xs ≠ [] → String.concat sep (x :: xs) = x +:+ sep +:+ String.concat sep xs.
Proof. by destruct xs. Qed.

(** Joining the segments with the separator gives the string back. *)
Lemma concat_split (sep : ascii) (s : string) :
  String.concat (String sep "") (Js.split sep s) = s.
Proof.
  induction s as [|c s IH]; simpl; [done|].
  pose proof (split_not_nil sep s) as Hne.
  case_decide as Hc.
  - subst c. by rewrite concat_cons, IH.
  - destruct (Js.split sep s) as [|seg segs]; [done|].
    destruct segs as [|seg' segs].
    + simpl in *. by rewrite IH.
    + rewrite concat_cons in IH |- * by done.
      by rewrite append_cons, IH.
Qed.

Lemma split_segments (sep : ascii) (s : string) :
  Forall (λ seg, str_forall (not_char sep) seg = true) (Js.split sep s).
Proof.
  induction s as [|c s IH]; simpl; [by repeat constructor|].
  case_decide as Hc; [by constructor|].
  assert (not_char sep c = true) as Hnc.
  { unfold not_char. by rewrite bool_decide_eq_false_2. }
  destruct (Js.split sep s) as [|seg segs].
  - constructor; [|done]. simpl. by rewrite Hnc.
  - apply Forall_cons in IH as [Hseg Hsegs]. constructor; [|done].
    simpl. by rewrite Hseg, Hnc.
Qed.

Lemma concat_snoc (sep : string) (segs : list string) (seg : string) :
  String.concat sep (segs ++ [seg])
  = match segs with
    | [] => seg
    | _ => (String.concat sep segs +:+ sep) +:+ seg
    end.
Proof.
  induction segs as [|x segs IH]; [done|].
  destruct segs as [|y segs].
  - simpl. by rewrite append_assoc.
  - change ((x :: y :: segs) ++ [seg]) with (x :: (y :: segs) ++ [seg]).
    rewrite !(concat_cons sep x), IH by done.
    by rewrite !append_assoc.
Qed.

Lemma slice_last {A : Type} (l : list A) (x : A) :
  Js.slice (-1) None (l ++ [x]) = [x].
Proof.
  unfold Js.slice, Js.rel_index. rewrite length_app. simpl.
  rewrite Z.max_l by lia.
  replace (Z.to_nat (Z.of_nat (length l + 1) + -1)) with (length l) by lia.
  rewrite drop_app_length.
  by replace (Z.to_nat (Z.of_nat (length l + 1) - (Z.of_nat (length l + 1) + -1)))
    with 1%nat by lia.
Qed.

(** X4: the [id] written into the metadata is always defined; it is the
    part of the folder name after its last hyphen (the whole name when
    there is none), so it contains no hyphen.  Both builds compute it the
    same way. *)
Theorem session_id_is_last_segment (now folderName : string) (s : Settings) :
  ∃ pre seg,
    id (initial_metadata now folderName s) = Some seg
    ∧ id (FirstBuild.initial_metadata now folderName) = Some seg
    ∧ folderName = pre +:+ seg
    ∧ str_forall (not_char "-") seg = true
    ∧ (pre = "" ∨ ∃ pre', pre = pre' +:+ "-").
Proof.
  pose proof (concat_split "-" folderName) as Hjoin.
  pose proof (split_segments "-" folderName) as Hfree.
  pose proof (split_not_nil "-" folderName) as Hne.
  destruct (Js.split "-" folderName) as [|x l] eqn:Hsplit
    using rev_ind; [done|]. clear IHl.
  apply Forall_app in Hfree as [_ [Hx _]%Forall_cons].
  rewrite concat_snoc in Hjoin.
  exists (match l with [] => "" | _ => String.concat "-" l +:+ "-" end), x.
  cbn [id initial_metadata FirstBuild.initial_metadata].
  rewrite Hsplit, slice_last. repeat split; [| done |].
  - destruct l; by rewrite <- Hjoin.
  - destruct l; eauto.
Qed.

(** ** The question bank *)

Lemma allQuestions_length : length allQuestions = 10%nat.
Proof. reflexivity. Qed.

Lemma generateDiscoveryQuestions_take (count : Z) :
  generateDiscoveryQuestions count
  = take (Z.to_nat (if count <? 0 then 10 + count else count)) allQuestions.
Proof.
  unfold generateDiscoveryQuestions, Js.slice, Js.rel_index.
  rewrite allQuestions_length. simpl from_option.
  change (Z.of_nat 10) with 10.
  rewrite (proj2 (Z.ltb_ge 0 0)) by lia. rewrite (Z.min_l 0) by lia.
  rewrite drop_0, Z.sub_0_r.
  destruct (Z.ltb_spec count 0).
  - f_equal. lia.
  - destruct (decide (count ≤ 10)).
    + by rewrite Z.min_l by lia.
    + rewrite Z.min_r by lia.
      rewrite !take_ge; [done | rewrite allQuestions_length; lia..].
Qed.

(** X5: [generateDiscoveryQuestions(count)] returns the first [count]
    questions of the bank of ten, all ten when [count] is larger, and for
    a negative [count] the bank without its last [-count] questions; it
    never returns more than ten. *)
Theorem generateDiscoveryQuestions_prefix (count : Z) :
  let n := if count <? 0 then 10 + count else count in
  generateDiscoveryQuestions count = take (Z.to_nat n) allQuestions
  ∧ Z.of_nat (length (generateDiscoveryQuestions count))
    = Z.max 0 (Z.min 10 n).
Proof.
  intros n. split; [apply generateDiscoveryQuestions_take|].
  rewrite generateDiscoveryQuestions_take, length_take, allQuestions_length.
  fold n. lia.
Qed.

(** ** Responses that change nothing *)

(** X6: whenever a tool answers with a refusal, an error or a read-out
    (already active, no active session, metadata missing, status report,
    current settings, invalid parameters, handler error), the
    [requirements/] directory is exactly as before the call. *)
Theorem reporting_responses_change_nothing (c : Call) (st : Store) :
  reports_only (handle c st).1 = true → (handle c st).2 = st.
Proof.
  destruct c as [now' request'|now' reply|now' today action|action dq eq];
    cbn [handle].
  - unfold requirements_start. by case_match.
  - unfold requirements_status, answer_discovery, leave_context,
      answer_detail.
    repeat (simpl; case_match); done.
  - unfold requirements_end. repeat (simpl; case_match); done.
  - unfold requirements_settings, settings_handler.
    repeat (simpl; case_match); done.
Qed.

Lemma reporting_responses_change_nothing_witness :
  (handle (CallStatus "2025-07-14T09:10:00.000Z" None) dark_mode_store).2
  = dark_mode_store.
Proof.
  apply (reporting_responses_change_nothing
           (CallStatus "2025-07-14T09:10:00.000Z" None) dark_mode_store).
  vm_compute. reflexivity.
Defined.

(** ** Ending a session *)

Lemma end_clears_pointer (now today : string) (action : EndAction.t)
    (st : Store) :
  Js.truthy (getCurrentRequirement (requirements_end now today action st).2)
  = false.
Proof.
  unfold requirements_end.
  destruct (Js.truthy (getCurrentRequirement st)) eqn:Htruthy; simpl; [|done].
  by destruct action; simpl; repeat case_match.
Qed.

(** X7: after any [requirements-end] call no session is active: a second
    [requirements-end] and a [requirements-status] report that there is
    no active session and write nothing. *)
Theorem end_twice_reports_no_session (now today : string)
    (action : EndAction.t) (st : Store) (now' today' : string)
    (action' : EndAction.t) (reply : option ElicitResult) :
  let st' := (requirements_end now today action st).2 in
  requirements_end now' today' action' st' = (NoActiveSession, st')
  ∧ requirements_status now' reply st' = (NoActiveSession, st')
  ∧ FirstBuild.requirements_status st' = (NoActiveSession, st').
Proof.
  intros st'. pose proof (end_clears_pointer now today action st) as Hptr.
  fold st' in Hptr.
  unfold requirements_end, requirements_status, FirstBuild.requirements_status.
  by rewrite Hptr.
Qed.

Lemma prefix_append (t s : string) : String.prefix t (t +:+ s) = true.
Proof.
  induction t as [|c t IH]; [by destruct s|].
  rewrite append_cons. simpl. by destruct (ascii_dec c c).
Qed.

(** A text includes each of its parts. *)
Lemma includes_append (pre t post : string) :
  Js.includes (pre +:+ t +:+ post) t = true.
Proof.
  induction pre as [|c pre IH].
  - rewrite append_empty_l.
    pose proof (prefix_append t post) as Hprefix.
    destruct (t +:+ post); cbn [Js.includes]; by rewrite Hprefix.
  - rewrite append_cons. cbn [Js.includes]. rewrite IH. apply orb_true_r.
Qed.

Lemma index_entry_includes (action : EndAction.t) (cur today content : string) :
  Js.includes (content +:+ index_entry action cur today) cur = true.
Proof.
  unfold index_entry.
  set (emoji := match action with EndAction.complete => _ | _ => _ end).
  set (text := match action with EndAction.complete => _ | _ => _ end).
  rewrite <- (append_assoc "- "), <- (append_assoc _ " **").
  rewrite <- (append_assoc content).
  apply includes_append.
Qed.

(** X8: ending the active session as [complete] or [incomplete] stamps
    its metadata (status, [lastUpdated], [endedAt]) when the file exists,
    leaves every other folder alone, clears the pointer, and leaves an
    index that mentions the folder name.  The index is written only when
    its text did not already contain the folder name; then exactly one
    line is appended. *)
Theorem end_stamps_and_indexes (now today cur : string) (action : EndAction.t)
    (st : Store) :
  getCurrentRequirement st = Some cur → cur ≠ "" →
  action ≠ EndAction.delete →
  let st' := (requirements_end now today action st).2 in
  (requirements_end now today action st).1 = SessionEnded cur action
  ∧ getCurrentRequirement st' = None
  ∧ read_metadata cur st' = ended_metadata now action <$> read_metadata cur st
  ∧ (∀ j, j ≠ cur → folders st' !! j = folders st !! j)
  ∧ Js.includes (index_content st') cur = true
  ∧ index_md st'
    = (if Js.includes (index_content st) cur then index_md st
       else Some (index_content st +:+ index_entry action cur today)).
Proof.
  intros Hcur Hne Haction st'. subst st'.
  unfold requirements_end. rewrite Hcur, (truthy_pointer cur Hne).
  cbn [negb from_option Datatypes.id].
  set (st1 := match read_metadata cur st with
              | Some metadata => _
              | None => st
              end).
  assert (index_md st1 = index_md st) as Hindex.
  { subst st1. by destruct (read_metadata cur st). }
  assert (read_metadata cur st1 = ended_metadata now action <$> read_metadata cur st)
    as Hmeta.
  { subst st1. destruct (read_metadata cur st) as [m|] eqn:Hm; [|by rewrite Hm].
    read_after_write. by rewrite decide_True. }
  assert (∀ j, j ≠ cur → folders st1 !! j = folders st !! j) as Hother.
  { intros j Hj. subst st1. destruct (read_metadata cur st); [|done].
    rewrite lookup_write_in. by rewrite decide_False. }
  destruct action; [| |done]; cbn [fst snd].
  all: unfold index_content; rewrite Hindex;
    fold (index_content st);
    destruct (Js.includes (index_content st) cur) eqn:Hinc;
    cbn [negb]; repeat split; try done;
    cbn [index_md clearCurrentRequirement set_current_requirement set_index_md
         from_option];
    try (by rewrite Hindex); try apply index_entry_includes.
Qed.

Lemma end_stamps_and_indexes_witness :
  let st' :=
    (requirements_end "2025-07-14T10:00:00.000Z" "7/14/2025"
       EndAction.incomplete dark_mode_store).2 in
  (requirements_end "2025-07-14T10:00:00.000Z" "7/14/2025"
     EndAction.incomplete dark_mode_store).1
  = SessionEnded "2025-07-14-0905-add-dark-mode" EndAction.incomplete
  ∧ getCurrentRequirement st' = None.
Proof.
  pose proof (end_stamps_and_indexes
                "2025-07-14T10:00:00.000Z" "7/14/2025"
                "2025-07-14-0905-add-dark-mode" EndAction.incomplete
                dark_mode_store) as H.
  cbv zeta in H. split; apply H;
    first [vm_compute; reflexivity | apply String.eqb_neq; reflexivity
          | vm_compute; congruence].
Defined.

(** ** Running out of questions *)

Lemma index_beyond {A : Type} (l : list A) (i : Z) :
  Z.of_nat (length l) ≤ i → Js.index l i = None.
Proof.
  intros Hi. unfold Js.index. rewrite (proj2 (Z.ltb_ge i 0)) by lia.
  apply lookup_ge_None. lia.
Qed.

Lemma slice_length_le {A : Type} (a : Z) (b : option Z) (l : list A) :
  (length (Js.slice a b l) ≤ length l)%nat.
Proof.
  unfold Js.slice. rewrite length_take, length_drop. lia.
Qed.

Lemma expertQuestionBank_length : length expertQuestionBank = 5%nat.
Proof. reflexivity. Qed.

(** X9: the discovery bank has ten questions and the expert bank five,
    while the settings allow up to twenty.  A session in [discovery] with
    ten or more answers and still fewer than its total, or in [detail]
    with five or more answers and still fewer than its total, cannot move
    on: every [requirements-status] call fails with the handler's error
    response and leaves everything unchanged. *)
Theorem status_stuck_beyond_question_bank
    (now : string) (reply : option ElicitResult) (cur : string)
    (m : Metadata) (st : Store) :
  getCurrentRequirement st = Some cur → cur ≠ "" →
  read_metadata cur st = Some m →
  (phase m = Phase.discovery
   ∧ 10 ≤ answered (discovery (progress m)) < total (discovery (progress m)))
  ∨ (phase m = Phase.detail
     ∧ 5 ≤ answered (detail (progress m)) < total (detail (progress m))) →
  requirements_status now reply st = (HandlerError, st).
Proof.
  intros Hcur Hne Hm Hstuck. unfold requirements_status.
  rewrite Hcur, (truthy_pointer cur Hne).
  cbn [negb from_option Datatypes.id]. rewrite Hm.
  destruct Hstuck as [[Hphase Hrange]|[Hphase Hrange]]; rewrite Hphase.
  - rewrite bool_decide_eq_true_2 by done.
    rewrite (proj2 (Z.ltb_lt _ _)) by lia. cbn [andb].
    unfold answer_discovery. rewrite index_beyond; [done|].
    unfold generateDiscoveryQuestions.
    pose proof (slice_length_le 0
      (Some (discoveryQuestions (default (loadSettings st) (settings m))))
      allQuestions) as Hlen.
    rewrite allQuestions_length in Hlen. lia.
  - rewrite bool_decide_eq_false_2 by done. cbn [andb].
    rewrite bool_decide_eq_false_2 by done.
    rewrite bool_decide_eq_true_2 by done.
    rewrite (proj2 (Z.ltb_lt _ _)) by lia. cbn [andb].
    unfold answer_detail. rewrite index_beyond; [done|].
    pose proof (slice_length_le 0 (Some (total (detail (progress m))))
      expertQuestionBank) as Hlen.
    rewrite expertQuestionBank_length in Hlen. lia.
Qed.

Lemma status_stuck_beyond_question_bank_witness :
  requirements_status "2025-07-14T09:30:00.000Z" accept_yes twelve_store
  = (HandlerError, twelve_store).
Proof.
  eapply (status_stuck_beyond_question_bank _ _
            "2025-07-14-0905-add-dark-mode").
  - vm_compute; reflexivity.
  - apply String.eqb_neq. reflexivity.
  - vm_compute; reflexivity.
  - left. vm_compute. repeat split; congruence.
Defined.

(** ** Answering a question *)

Lemma slice_prefix {A : Type} (n : Z) (l : list A) :
  0 ≤ n → Js.slice 0 (Some n) l = take (Z.to_nat n) l.
Proof.
  intros Hn. unfold Js.slice, Js.rel_index. simpl from_option.
  rewrite (proj2 (Z.ltb_ge 0 0)) by lia.
  rewrite (proj2 (Z.ltb_ge n 0)) by lia.
  rewrite (Z.min_l 0) by lia. rewrite drop_0, Z.sub_0_r.
  destruct (decide (n ≤ Z.of_nat (length l))).
  - by rewrite Z.min_l by lia.
  - rewrite Z.min_r by lia. rewrite !take_ge; [done | lia..].
Qed.

Lemma index_slice_prefix {A : Type} (n i : Z) (l : list A) :
  0 ≤ i < n → Js.index (Js.slice 0 (Some n) l) i = l !! Z.to_nat i.
Proof.
  intros Hi. rewrite slice_prefix by lia. unfold Js.index.
  rewrite (proj2 (Z.ltb_ge i 0)) by lia.
  apply lookup_take_lt. lia.
Qed.

Lemma askQuestion_resolved (r : ElicitResult) (q : Question) :
  askQuestion (Some r) (defaultValue q) = Some (chosen_answer r q).
Proof. reflexivity. Qed.

Lemma lookup_of_metadata (name : string) (m : Metadata) (st : Store) :
  read_metadata name st = Some m →
  ∃ f, folders st !! name = Some f ∧ metadata_json f = Some m.
Proof.
  unfold read_metadata. destruct (folders st !! name) as [f|]; [eauto|done].
Qed.

(** One discovery question answered: what the call returns and writes. *)
Lemma discovery_answer_effect (now : string) (r : ElicitResult) (cur : string)
    (m : Metadata) (st : Store) :
  getCurrentRequirement st = Some cur → cur ≠ "" →
  read_metadata cur st = Some m →
  phase m = Phase.discovery →
  0 ≤ answered (discovery (progress m)) < total (discovery (progress m)) →
  answered (discovery (progress m)) < 10 →
  answered (discovery (progress m))
  < discoveryQuestions (default (loadSettings st) (settings m)) →
  ∃ q, allQuestions !! Z.to_nat (answered (discovery (progress m))) = Some q
    ∧ (requirements_status now (Some r) st).1
      = (if answered (discovery (progress m)) + 1
            >=? total (discovery (progress m))
         then DiscoveryPhaseComplete (chosen_answer r q) q
         else QuestionAnswered (chosen_answer r q) q
                (set_answered (answered (discovery (progress m)) + 1)
                   (discovery (progress m))))
    ∧ getCurrentRequirement (requirements_status now (Some r) st).2 = Some cur
    ∧ read_metadata cur (requirements_status now (Some r) st).2
      = Some (answered_discovery now m)
    ∧ discovery_answers cur (requirements_status now (Some r) st).2
      = Some (append_answer now
                (answer_entry (answered (discovery (progress m))) q
                   (chosen_answer r q))
                (discovery_answers cur st)).
Proof.
  intros Hcur Hne Hm Hphase Hrange Hbank Hcount.
  destruct (lookup_lt_is_Some_2 allQuestions
              (Z.to_nat (answered (discovery (progress m))))) as [q Hq].
  { rewrite allQuestions_length. lia. }
  exists q. split; [done|].
  destruct (lookup_of_metadata _ _ _ Hm) as (f & Hf & Hfm).
  unfold requirements_status.
  rewrite Hcur, (truthy_pointer cur Hne).
  cbn [negb from_option Datatypes.id]. rewrite Hm, Hphase.
  rewrite bool_decide_eq_true_2 by done.
  rewrite (proj2 (Z.ltb_lt _ _)) by lia. cbn [andb].
  unfold answer_discovery, generateDiscoveryQuestions.
  rewrite index_slice_prefix, Hq, askQuestion_resolved by lia.
  unfold answered_discovery, discovery_answers. cbv zeta.
  cbn [answered total discovery progress set_lastUpdated set_progress
       set_discovery set_answered].
  destruct (_ >=? _); cbn [fst snd]; (split; [done|]);
    (split; [done|]); read_after_write; rewrite decide_True by done;
    (split; [done|]);
    rewrite !lookup_write_in, !decide_True, Hf by done; done.
Qed.

(** One expert question answered. *)
Lemma detail_answer_effect (now : string) (r : ElicitResult) (cur : string)
    (m : Metadata) (st : Store) :
  getCurrentRequirement st = Some cur → cur ≠ "" →
  read_metadata cur st = Some m →
  phase m = Phase.detail →
  0 ≤ answered (detail (progress m)) < total (detail (progress m)) →
  answered (detail (progress m)) < 5 →
  ∃ q, expertQuestionBank !! Z.to_nat (answered (detail (progress m))) = Some q
    ∧ (requirements_status now (Some r) st).1
      = (if answered (detail (progress m)) + 1 >=? total (detail (progress m))
         then ExpertQuestionsComplete (chosen_answer r q) q
         else ExpertQuestionAnswered (chosen_answer r q) q
                (set_answered (answered (detail (progress m)) + 1)
                   (detail (progress m))))
    ∧ getCurrentRequirement (requirements_status now (Some r) st).2 = Some cur
    ∧ read_metadata cur (requirements_status now (Some r) st).2
      = Some (answered_detail now m)
    ∧ detail_answers cur (requirements_status now (Some r) st).2
      = Some (append_answer now
                (answer_entry (answered (detail (progress m))) q
                   (chosen_answer r q))
                (detail_answers cur st)).
Proof.
  intros Hcur Hne Hm Hphase Hrange Hbank.
  destruct (lookup_lt_is_Some_2 expertQuestionBank
              (Z.to_nat (answered (detail (progress m))))) as [q Hq].
  { rewrite expertQuestionBank_length. lia. }
  exists q. split; [done|].
  destruct (lookup_of_metadata _ _ _ Hm) as (f & Hf & Hfm).
  unfold requirements_status.
  rewrite Hcur, (truthy_pointer cur Hne).
  cbn [negb from_option Datatypes.id]. rewrite Hm, Hphase.
  rewrite bool_decide_eq_false_2 by done. cbn [andb].
  rewrite bool_decide_eq_false_2 by done.
  rewrite bool_decide_eq_true_2 by done.
  rewrite (proj2 (Z.ltb_lt _ _)) by lia. cbn [andb].
  unfold answer_detail.
  rewrite index_slice_prefix, Hq, askQuestion_resolved by lia.
  unfold answered_detail, detail_answers. cbv zeta.
  cbn [answered total detail progress set_lastUpdated set_progress
       set_detail set_answered].
  destruct (_ >=? _); cbn [fst snd]; (split; [done|]);
    (split; [done|]); read_after_write; rewrite decide_True by done;
    (split; [done|]);
    rewrite !lookup_write_in, !decide_True, Hf by done; done.
Qed.

(** Leaving the context phase. *)
Lemma context_step_effect (now : string) (reply : option ElicitResult)
    (cur : string) (m : Metadata) (st : Store) :
  getCurrentRequirement st = Some cur → cur ≠ "" →
  read_metadata cur st = Some m →
  phase m = Phase.context →
  requirements_status now reply st
  = (ContextPhaseComplete,
     write_in cur
       (write_metadata (set_lastUpdated now (set_phase Phase.detail m))) st).
Proof.
  intros Hcur Hne Hm Hphase. unfold requirements_status.
  rewrite Hcur, (truthy_pointer cur Hne).
  cbn [negb from_option Datatypes.id]. rewrite Hm, Hphase.
  rewrite bool_decide_eq_false_2 by done. cbn [andb].
  by rewrite bool_decide_eq_true_2 by done.
Qed.

(** X10: in [discovery], with a question left in the bank for the next
    index, a [requirements-status] call whose elicitation resolves
    records exactly one answer: [answered] grows by one, [lastUpdated] is
    the time of the call, the phase becomes [context] exactly when the
    total is reached, and one block is appended to the discovery answers
    file with the question's number, text and reasoning.  The recorded
    answer is the user's only if the elicitation was accepted with an
    answer; a declined or cancelled elicitation records the default. *)
Theorem status_records_discovery_answer (now : string) (r : ElicitResult)
    (cur : string) (m : Metadata) (st : Store) :
  getCurrentRequirement st = Some cur → cur ≠ "" →
  read_metadata cur st = Some m →
  phase m = Phase.discovery →
  0 ≤ answered (discovery (progress m)) < total (discovery (progress m)) →
  answered (discovery (progress m)) < 10 →
  answered (discovery (progress m))
  < discoveryQuestions (default (loadSettings st) (settings m)) →
  let st' := (requirements_status now (Some r) st).2 in
  ∃ q m',
    allQuestions !! Z.to_nat (answered (discovery (progress m))) = Some q
    ∧ read_metadata cur st' = Some m'
    ∧ answered (discovery (progress m')) = answered (discovery (progress m)) + 1
    ∧ lastUpdated m' = now
    ∧ phase m'
      = (if answered (discovery (progress m)) + 1
            >=? total (discovery (progress m))
         then Phase.context else Phase.discovery)
    ∧ entries (discovery_answers cur st')
      = entries (discovery_answers cur st)
        ++ [{| entry_number := answered (discovery (progress m)) + 1;
               entry_question := question q;
               entry_answer :=
                 match elicit_action r, elicit_answer r with
                 | Elicit.accept, Some a => a
                 | _, _ => defaultValue q
                 end;
               entry_reasoning := reason q |}].
Proof.
  intros Hcur Hne Hm Hphase Hrange Hbank Hcount st'. subst st'.
  destruct (discovery_answer_effect now r cur m st)
    as (q & Hq & _ & _ & Hm' & Hanswers); try done.
  exists q, (answered_discovery now m). split; [done|]. split; [done|].
  rewrite Hanswers. unfold answered_discovery. cbv zeta.
  cbn [answered total discovery progress set_lastUpdated set_progress
       set_discovery set_answered].
  repeat split.
  - by destruct (_ >=? _).
  - by destruct (_ >=? _).
  - destruct (_ >=? _); simpl; by rewrite ?Hphase.
  - by destruct (discovery_answers cur st).
Qed.

Lemma status_records_discovery_answer_witness :
  ∃ q m',
    allQuestions !! 0%nat = Some q
    ∧ read_metadata "2025-07-14-0905-add-dark-mode"
        (requirements_status "2025-07-14T09:06:00.000Z"
           (Some {| elicit_action := Elicit.decline; elicit_answer := None |})
           dark_mode_store).2 = Some m'
    ∧ answered (discovery (progress m')) = 1
    ∧ lastUpdated m' = "2025-07-14T09:06:00.000Z".
Proof.
  destruct (status_records_discovery_answer
              "2025-07-14T09:06:00.000Z"
              {| elicit_action := Elicit.decline; elicit_answer := None |}
              "2025-07-14-0905-add-dark-mode"
              (initial_metadata "2025-07-14T09:05:33.120Z"
                 "2025-07-14-0905-add-dark-mode" DEFAULT_SETTINGS)
              dark_mode_store)
    as (q & m' & Hq & Hm' & Ha & Ht & _).
  - vm_compute; reflexivity.
  - apply String.eqb_neq. reflexivity.
  - vm_compute; reflexivity.
  - reflexivity.
  - simpl; lia.
  - simpl; lia.
  - simpl; lia.
  - exists q, m'. auto.
Defined.

(** ** A whole interview *)

Lemma advance_all_cons (input : string * option ElicitResult)
    (inputs : list (string * option ElicitResult)) (st : Store) :
  advance_all (input :: inputs) st = advance_all inputs (advance input st).
Proof. reflexivity. Qed.

Lemma geb_true (a b : Z) : b ≤ a → (a >=? b) = true.
Proof. intros H. by apply Z.geb_le. Qed.

Lemma geb_false (a b : Z) : a < b → (a >=? b) = false.
Proof. intros H. rewrite Z.geb_leb. by apply Z.leb_gt. Qed.

Lemma answered_discovery_fields (now : string) (m : Metadata) :
  let m' := answered_discovery now m in
  answered (discovery (progress m')) = answered (discovery (progress m)) + 1
  ∧ total (discovery (progress m')) = total (discovery (progress m))
  ∧ detail (progress m') = detail (progress m)
  ∧ settings m' = settings m
  ∧ status m' = status m
  ∧ phase m'
    = (if answered (discovery (progress m)) + 1
          >=? total (discovery (progress m))
       then Phase.context else phase m).
Proof.
  unfold answered_discovery. cbv zeta.
  cbn [answered total discovery progress set_lastUpdated set_progress
       set_discovery set_answered].
  by destruct (_ >=? _).
Qed.

Lemma answered_detail_fields (now : string) (m : Metadata) :
  let m' := answered_detail now m in
  answered (detail (progress m')) = answered (detail (progress m)) + 1
  ∧ total (detail (progress m')) = total (detail (progress m))
  ∧ discovery (progress m') = discovery (progress m)
  ∧ phase m'
    = (if answered (detail (progress m)) + 1 >=? total (detail (progress m))
       then Phase.complete else phase m)
  ∧ status m'
    = (if answered (detail (progress m)) + 1 >=? total (detail (progress m))
       then Status.completed else status m).
Proof.
  unfold answered_detail. cbv zeta.
  cbn [answered total detail progress set_lastUpdated set_progress
       set_detail set_answered].
  by destruct (_ >=? _).
Qed.

(** Answering all the remaining discovery questions. *)
Lemma discovery_phase_run (cur : string)
    (inputs : list (string * option ElicitResult)) :
  cur ≠ "" → Forall (λ i, is_Some i.2) inputs →
  ∀ (st : Store) (m : Metadata) (s : Settings),
    getCurrentRequirement st = Some cur →
    read_metadata cur st = Some m →
    phase m = Phase.discovery →
    settings m = Some s →
    discoveryQuestions s = total (discovery (progress m)) →
    0 ≤ answered (discovery (progress m)) < total (discovery (progress m)) →
    total (discovery (progress m)) ≤ 10 →
    answered (discovery (progress m)) + Z.of_nat (length inputs)
    = total (discovery (progress m)) →
    ∃ m', getCurrentRequirement (advance_all inputs st) = Some cur
          ∧ read_metadata cur (advance_all inputs st) = Some m'
          ∧ phase m' = Phase.context
          ∧ answered (discovery (progress m')) = total (discovery (progress m))
          ∧ total (discovery (progress m')) = total (discovery (progress m))
          ∧ detail (progress m') = detail (progress m)
          ∧ status m' = status m.
Proof.
  intros Hne Hreplies.
  induction Hreplies as [|[now reply] inputs [r Hr] _ IH];
    intros st m s Hcur Hm Hphase Hs Hdq Hrange Hbank Hlen;
    [cbn [length] in Hlen; lia|].
  simpl in Hr. subst reply. rewrite advance_all_cons.
  destruct (discovery_answer_effect now r cur m st)
    as (q & _ & _ & Hcur' & Hm' & _); try done; try lia.
  { rewrite Hs. simpl. lia. }
  destruct (answered_discovery_fields now m)
    as (Ha & Ht & Hd & Hs' & Hst & Hph).
  fold (advance (now, Some r) st) in Hcur', Hm'.
  cbn [length] in Hlen. rewrite Nat2Z.inj_succ in Hlen.
  destruct inputs as [|input inputs].
  - change (Z.of_nat (length [])) with 0 in Hlen.
    exists (answered_discovery now m).
    rewrite Hph, geb_true by lia.
    repeat split; try done. lia.
  - assert (1 ≤ Z.of_nat (length (input :: inputs))) as Hpos.
    { cbn [length]. rewrite Nat2Z.inj_succ. lia. }
    rewrite geb_false in Hph by lia.
    destruct (IH (advance (now, Some r) st) (answered_discovery now m) s)
      as (m' & ? & ? & ? & ? & ? & ? & ?);
      try done; try congruence; try lia.
    exists m'. repeat split; try done; congruence.
Qed.

(** Answering all the remaining expert questions. *)
Lemma detail_phase_run (cur : string)
    (inputs : list (string * option ElicitResult)) :
  cur ≠ "" → Forall (λ i, is_Some i.2) inputs →
  ∀ (st : Store) (m : Metadata),
    getCurrentRequirement st = Some cur →
    read_metadata cur st = Some m →
    phase m = Phase.detail →
    0 ≤ answered (detail (progress m)) < total (detail (progress m)) →
    total (detail (progress m)) ≤ 5 →
    answered (detail (progress m)) + Z.of_nat (length inputs)
    = total (detail (progress m)) →
    ∃ m', getCurrentRequirement (advance_all inputs st) = Some cur
          ∧ read_metadata cur (advance_all inputs st) = Some m'
          ∧ phase m' = Phase.complete
          ∧ status m' = Status.completed
          ∧ answered (detail (progress m')) = total (detail (progress m))
          ∧ total (detail (progress m')) = total (detail (progress m))
          ∧ discovery (progress m') = discovery (progress m).
Proof.
  intros Hne Hreplies.
  induction Hreplies as [|[now reply] inputs [r Hr] _ IH];
    intros st m Hcur Hm Hphase Hrange Hbank Hlen;
    [cbn [length] in Hlen; lia|].
  simpl in Hr. subst reply. rewrite advance_all_cons.
  destruct (detail_answer_effect now r cur m st)
    as (q & _ & _ & Hcur' & Hm' & _); try done; try lia.
  destruct (answered_detail_fields now m) as (Ha & Ht & Hd & Hph & Hst).
  fold (advance (now, Some r) st) in Hcur', Hm'.
  cbn [length] in Hlen. rewrite Nat2Z.inj_succ in Hlen.
  destruct inputs as [|input inputs].
  - change (Z.of_nat (length [])) with 0 in Hlen.
    exists (answered_detail now m).
    rewrite Hph, Hst, geb_true by lia.
    repeat split; try done. lia.
  - assert (1 ≤ Z.of_nat (length (input :: inputs))) as Hpos.
    { cbn [length]. rewrite Nat2Z.inj_succ. lia. }
    rewrite geb_false in Hph by lia.
    destruct (IH (advance (now, Some r) st) (answered_detail now m))
      as (m' & ? & ? & ? & ? & ? & ? & ?);
      try done; try congruence; try lia.
    exists m'. repeat split; try done; congruence.
Qed.

(** X11: a whole interview.  Start a session while none is active, with
    settings of at most ten discovery and five expert questions, and let
    every elicitation resolve.  Then exactly [discoveryQuestions] calls
    of [requirements-status] bring the session to [context] with every
    discovery question answered, one more call brings it to [detail], and
    exactly [expertQuestions] further calls bring it to [complete] with
    status [completed] and both counters at their totals. *)
Theorem interview_runs_to_completion (now request : string) (st : Store)
    (disc det : list (string * option ElicitResult))
    (mid : string * option ElicitResult) :
  Js.truthy (getCurrentRequirement st) = false →
  1 ≤ discoveryQuestions (loadSettings st) ≤ 10 →
  1 ≤ expertQuestions (loadSettings st) ≤ 5 →
  Z.of_nat (length disc) = discoveryQuestions (loadSettings st) →
  Z.of_nat (length det) = expertQuestions (loadSettings st) →
  Forall (λ i, is_Some i.2) disc → Forall (λ i, is_Some i.2) det →
  let st1 := advance_all disc (requirements_start now request st).2 in
  let st2 := advance mid st1 in
  let st3 := advance_all det st2 in
  ∃ m1 m2 m3,
    active_metadata st1 = Some m1 ∧ phase m1 = Phase.context
    ∧ answered (discovery (progress m1)) = discoveryQuestions (loadSettings st)
    ∧ active_metadata st2 = Some m2 ∧ phase m2 = Phase.detail
    ∧ active_metadata st3 = Some m3 ∧ phase m3 = Phase.complete
    ∧ status m3 = Status.completed
    ∧ progress m3
      = {| discovery :=
             {| answered := discoveryQuestions (loadSettings st);
                total := discoveryQuestions (loadSettings st) |};
           detail :=
             {| answered := expertQuestions (loadSettings st);
                total := expertQuestions (loadSettings st) |} |}.
Proof.
  intros Hfalsy Hdq Heq Hdisc Hdet Hrd Hrt st1 st2 st3.
  set (cur := createTimestampFolder now request).
  pose proof (folder_name_not_empty now request) as Hne. fold cur in Hne.
  destruct (start_folder now request st Hfalsy) as (_ & Hcur0 & _).
  fold cur in Hcur0.
  pose proof (start_metadata now request st cur) as Hm0.
  rewrite Hfalsy, decide_True in Hm0 by done. fold cur in Hm0.
  destruct (discovery_phase_run cur disc Hne Hrd _ _ (loadSettings st) Hcur0 Hm0)
    as (m1 & Hcur1 & Hm1 & Hph1 & Ha1 & Ht1 & Hd1 & Hs1);
    try done; try (simpl; lia).
  fold st1 in Hcur1, Hm1. simpl in Ha1, Ht1, Hd1.
  pose proof (context_step_effect mid.1 mid.2 cur m1 st1 Hcur1 Hne Hm1 Hph1)
    as Hmid.
  assert (getCurrentRequirement st2 = Some cur) as Hcur2.
  { subst st2. unfold advance. by rewrite Hmid. }
  assert (read_metadata cur st2
          = Some (set_lastUpdated mid.1 (set_phase Phase.detail m1))) as Hm2.
  { subst st2. unfold advance. rewrite Hmid. cbn [snd]. read_after_write.
    by rewrite decide_True. }
  destruct (detail_phase_run cur det Hne Hrt _ _ Hcur2 Hm2)
    as (m3 & Hcur3 & Hm3 & Hph3 & Hst3 & Ha3 & Ht3 & Hd3);
    try done; try (simpl; rewrite ?Hd1; simpl; lia).
  fold st3 in Hcur3, Hm3. simpl in Ha3, Ht3, Hd3. rewrite Hd1 in Ha3, Ht3.
  simpl in Ha3, Ht3.
  exists m1, (set_lastUpdated mid.1 (set_phase Phase.detail m1)), m3.
  unfold active_metadata. rewrite Hcur1, Hcur2, Hcur3. simpl.
  repeat split; try done.
  destruct m3 as [? ? ? ? ? ? [[a1 t1] [a2 t2]] ? ? ?]. simpl in *.
  destruct m1 as [? ? ? ? ? ? [[b1 u1] bd] ? ? ?]. simpl in *.
  congruence.
Qed.

Lemma interview_runs_to_completion_witness :
  ∃ m1 m2 m3,
    active_metadata
      (advance_all (replicate 5 ("2025-07-14T09:06:00.000Z", accept_yes))
         (requirements_start "2025-07-14T09:05:33.120Z" "Add dark mode"
            empty_store).2) = Some m1
    ∧ phase m1 = Phase.context
    ∧ answered (discovery (progress m1)) = 5
    ∧ active_metadata
        (advance ("2025-07-14T09:07:00.000Z", None)
           (advance_all (replicate 5 ("2025-07-14T09:06:00.000Z", accept_yes))
              (requirements_start "2025-07-14T09:05:33.120Z" "Add dark mode"
                 empty_store).2)) = Some m2
    ∧ phase m2 = Phase.detail
    ∧ active_metadata
        (advance_all (replicate 5 ("2025-07-14T09:08:00.000Z", accept_yes))
           (advance ("2025-07-14T09:07:00.000Z", None)
              (advance_all
                 (replicate 5 ("2025-07-14T09:06:00.000Z", accept_yes))
                 (requirements_start "2025-07-14T09:05:33.120Z"
                    "Add dark mode" empty_store).2))) = Some m3
    ∧ phase m3 = Phase.complete
    ∧ status m3 = Status.completed
    ∧ progress m3
      = {| discovery := {| answered := 5; total := 5 |};
           detail := {| answered := 5; total := 5 |} |}.
Proof.
  apply (interview_runs_to_completion
           "2025-07-14T09:05:33.120Z" "Add dark mode" empty_store
           (replicate 5 ("2025-07-14T09:06:00.000Z", accept_yes))
           (replicate 5 ("2025-07-14T09:08:00.000Z", accept_yes))
           ("2025-07-14T09:07:00.000Z", None)).
  - reflexivity.
  - simpl; lia.
  - simpl; lia.
  - reflexivity.
  - reflexivity.
  - simpl. repeat constructor; simpl; eauto.
  - simpl. repeat constructor; simpl; eauto.
Defined.

(** ** Transcripts are append-only *)

Lemma append_answer_entries (now : string) (e : AnswerEntry)
    (file : option AnswersFile) :
  entries (Some (append_answer now e file)) = entries file ++ [e].
Proof. by destruct file. Qed.

Lemma bind_write_in {B : Type} (proj : Folder → option B) (name j : string)
    (w : Folder → Folder) (st : Store) :
  folders (write_in name w st) !! j ≫= proj
  = if decide (name = j) then folders st !! name ≫= λ f, proj (w f)
    else folders st !! j ≫= proj.
Proof.
  rewrite lookup_write_in. case_decide; [|done].
  by destruct (folders st !! name).
Qed.

(** X12: no [requirements-status] call, whatever it does, rewrites or
    removes a block of an answers file: in every session folder the
    blocks present before the call are still there, in the same order, at
    the head of the file after the call. *)
Theorem status_keeps_earlier_answers (now : string)
    (reply : option ElicitResult) (st : Store) (name : string) :
  let st' := (requirements_status now reply st).2 in
  entries (discovery_answers name st) `prefix_of`
    entries (discovery_answers name st')
  ∧ entries (detail_answers name st) `prefix_of`
      entries (detail_answers name st').
Proof.
  cbv zeta. unfold requirements_status.
  destruct (Js.truthy (getCurrentRequirement st)); cbn [negb]; [|done].
  set (cur := default "" (getCurrentRequirement st)).
  destruct (read_metadata cur st) as [m|] eqn:Hm; [|done].
  destruct (lookup_of_metadata _ _ _ Hm) as (f & Hf & _).
  unfold answer_discovery, leave_context, answer_detail,
    discovery_answers, detail_answers.
  repeat (case_match; cbn [snd]); try done;
    rewrite !bind_write_in;
    (destruct (decide (cur = name)) as [<-|Hname]; [|done]);
    rewrite ?decide_True by done; rewrite Hf;
    cbn [mbind option_bind discovery_answers_md detail_answers_md
         write_metadata write_discovery_answers write_detail_answers];
    try done;
    (split; [|done]) || (split; [done|]);
    rewrite append_answer_entries; by apply prefix_app_r.
Qed.

(** ** Settings *)

(** X13: a [requirements-settings] update of both counts has the same
    effect as updating one count and then the other, in either order,
    provided the counts pass the input schema. *)
Theorem settings_updates_compose (dq eq : Z) (st : Store) :
  1 ≤ dq ≤ 20 → 1 ≤ eq ≤ 20 →
  let both := (requirements_settings SettingsAction.set (Some dq) (Some eq) st).2 in
  (requirements_settings SettingsAction.set None (Some eq)
     (requirements_settings SettingsAction.set (Some dq) None st).2).2 = both
  ∧ (requirements_settings SettingsAction.set (Some dq) None
       (requirements_settings SettingsAction.set None (Some eq) st).2).2 = both
  ∧ loadSettings both = {| discoveryQuestions := dq; expertQuestions := eq |}.
Proof.
  intros Hdq Heq both. subst both.
  unfold requirements_settings, settings_handler, schema_count.
  rewrite !(proj2 (Z.leb_le 1 dq)), !(proj2 (Z.leb_le dq 20)) by lia.
  rewrite !(proj2 (Z.leb_le 1 eq)), !(proj2 (Z.leb_le eq 20)) by lia.
  done.
Qed.

Lemma settings_updates_compose_witness :
  (requirements_settings SettingsAction.set None (Some 4)
     (requirements_settings SettingsAction.set (Some 7) None empty_store).2).2
  = (requirements_settings SettingsAction.set (Some 7) (Some 4) empty_store).2.
Proof.
  apply (settings_updates_compose 7 4 empty_store); lia.
Defined.

(** X14: starting from an empty [requirements/] directory, after any
    sequence of tool calls the settings that [loadSettings] returns have
    both counts within [1, 20], and so has every session the tools have
    created: its totals are within [1, 20] and its answered counters
    between 0 and the totals. *)
Theorem tools_keep_counts_in_range (calls : list Call) :
  let st := run calls empty_store in
  (1 ≤ discoveryQuestions (loadSettings st) ≤ 20
   ∧ 1 ≤ expertQuestions (loadSettings st) ≤ 20)
  ∧ ∀ name m, read_metadata name st = Some m →
      0 ≤ answered (discovery (progress m)) ≤ total (discovery (progress m))
      ∧ total (discovery (progress m)) ≤ 20
      ∧ 0 ≤ answered (detail (progress m)) ≤ total (detail (progress m))
      ∧ total (detail (progress m)) ≤ 20.
Proof.
  cbv zeta.
  induction calls as [|c calls IH] using rev_ind.
  { split; [by vm_compute|]. intros name m. by unfold read_metadata. }
  rewrite run_snoc.
  pose proof (run_store_ok calls empty_store empty_store_ok) as [Hfile _].
  destruct IH as [Hload Hsessions].
  revert Hfile Hload Hsessions. generalize (run calls empty_store).
  intros st Hfile Hload Hsessions.
  split.
  { apply loadSettings_in_range. by apply handle_settings_file_ok. }
  intros name m'.
  destruct c as [now request|now reply|now today action|action dq eq];
    cbn [handle].
  - rewrite start_metadata.
    destruct (Js.truthy _); [apply Hsessions|].
    case_decide; [|apply Hsessions].
    intros [= <-].
    cbn [initial_metadata progress discovery detail answered total]. lia.
  - destruct (read_metadata name st) as [m|] eqn:Hm.
    + destruct (status_steps_metadata now reply st name m Hm)
        as (m'' & -> & Hstep).
      intros [= <-]. specialize (Hsessions name m Hm).
      destruct (status_step_totals _ _ Hstep) as [Htd Htt].
      pose proof (status_step_answered_le _ _ Hstep) as [? ?].
      assert (counters_ok m) as Hok by (unfold counters_ok; lia).
      pose proof (status_step_counters_ok _ _ Hstep Hok) as [? ?]. lia.
    + by rewrite status_creates_no_metadata.
  - destruct (read_metadata name st) as [m|] eqn:Hm.
    + destruct (end_metadata now today action st name m Hm)
        as [[-> _]|(m'' & -> & _ & Hprogress)]; [done|].
      intros [= <-]. rewrite Hprogress. by apply (Hsessions name).
    + by rewrite end_creates_no_metadata.
  - unfold read_metadata. rewrite settings_keeps_folders. apply Hsessions.
Qed.

(** X15: a session that carries its own settings is not affected by
    later changes of the settings file: [requirements-status] returns the
    same response and makes the same changes whatever [.mcp-settings.json]
    holds. *)
Theorem status_ignores_settings_file (v : option SettingsFile) (now : string)
    (reply : option ElicitResult) (st : Store) :
  (∀ m, active_metadata st = Some m → is_Some (settings m)) →
  requirements_status now reply (set_mcp_settings_json v st)
  = ((requirements_status now reply st).1,
     set_mcp_settings_json v (requirements_status now reply st).2).
Proof.
  intros Hsettings. unfold requirements_status.
  change (getCurrentRequirement (set_mcp_settings_json v st))
    with (getCurrentRequirement st).
  destruct (Js.truthy (getCurrentRequirement st)) eqn:Htruthy;
    cbn [negb]; [|done].
  destruct (getCurrentRequirement st) as [cur|] eqn:Hcur; [|done].
  cbn [from_option Datatypes.id].
  change (read_metadata cur (set_mcp_settings_json v st))
    with (read_metadata cur st).
  destruct (read_metadata cur st) as [m|] eqn:Hm; [|done].
  destruct (Hsettings m) as [s Hs].
  { unfold active_metadata. rewrite Hcur. exact Hm. }
  unfold answer_discovery, leave_context, answer_detail. rewrite Hs.
  cbn [from_option Datatypes.id].
  repeat (case_match; cbn [fst snd]); done.
Qed.

Lemma status_ignores_settings_file_witness :
  requirements_status "2025-07-14T09:06:00.000Z" accept_yes
    (set_mcp_settings_json (Some (Parsed (Some 1) (Some 1))) dark_mode_store)
  = ((requirements_status "2025-07-14T09:06:00.000Z" accept_yes
        dark_mode_store).1,
     set_mcp_settings_json (Some (Parsed (Some 1) (Some 1)))
       (requirements_status "2025-07-14T09:06:00.000Z" accept_yes
          dark_mode_store).2).
Proof.
  apply (status_ignores_settings_file
           (Some (Parsed (Some 1) (Some 1))) "2025-07-14T09:06:00.000Z"
           accept_yes dark_mode_store).
  intros m Hm. vm_compute in Hm. injection Hm as <-. simpl. eauto.
Defined.

(** ** Starting over an existing folder *)

(** X16: [requirements-start] writes into the folder its name designates
    even when that folder already exists: the initial request, the
    metadata and the questions file are replaced, while the answers files
    already there are kept as they are.  Every other folder, the settings
    file and the index are untouched. *)
Theorem start_reuses_existing_folder (now request : string) (f0 : Folder)
    (st : Store) :
  Js.truthy (getCurrentRequirement st) = false →
  let folderName := createTimestampFolder now request in
  folders st !! folderName = Some f0 →
  let st' := (requirements_start now request st).2 in
  read_metadata folderName st'
  = Some (initial_metadata now folderName (loadSettings st))
  ∧ discovery_answers folderName st' = discovery_answers_md f0
  ∧ detail_answers folderName st' = detail_answers_md f0
  ∧ (∀ j, folderName ≠ j → folders st' !! j = folders st !! j)
  ∧ mcp_settings_json st' = mcp_settings_json st
  ∧ index_md st' = index_md st.
Proof.
  intros Hfalsy folderName Hf0 st'. subst st'.
  destruct (start_folder now request st Hfalsy)
    as (_ & _ & Hset & Hidx & Hf & Hother).
  fold folderName in Hf, Hother. rewrite Hf0 in Hf.
  unfold read_metadata, discovery_answers, detail_answers. rewrite Hf.
  repeat split; try done.
Qed.

Lemma start_reuses_existing_folder_witness :
  ∃ f0,
    folders reused_store !! "2025-07-14-0905-add-dark-mode" = Some f0
    ∧ discovery_answers "2025-07-14-0905-add-dark-mode"
        (requirements_start "2025-07-14T09:05:59.000Z" "Add dark mode"
           reused_store).2
      = discovery_answers_md f0.
Proof.
  eexists. split; [vm_compute; reflexivity|].
  apply (start_reuses_existing_folder
           "2025-07-14T09:05:59.000Z" "Add dark mode" _ reused_store);
    [reflexivity | vm_compute; reflexivity].
Defined.

(** ** Listing the sessions *)

Lemma list_row_folders (cur : option string) (st : Store) (l : list string) :
  row_folder <$> (list_row cur st <$> l) = l.
Proof. induction l as [|x l IH]; [done|]. by rewrite !fmap_cons, IH. Qed.

Lemma sorted_folders_elem (st : Store) (name : string) :
  name ∈ reverse (merge_sort String.le (map_to_list (folders st)).*1)
  ↔ is_Some (folders st !! name).
Proof.
  rewrite elem_of_reverse, merge_sort_Permutation, list_elem_of_fmap.
  split.
  - intros ([j f] & -> & Hin). apply elem_of_map_to_list in Hin. eauto.
  - intros [f Hf]. exists (name, f). split; [done|].
    by apply elem_of_map_to_list.
Qed.

(** X17: [requirements-list] reports that there is nothing to list
    exactly when there is no session folder.  Otherwise it lists every
    session folder exactly once, in descending order of folder name (the
    newest timestamp first), each with the status and phase of its
    metadata file, and with the active marker on the folder the registry
    pointer names. *)
Theorem list_shows_every_folder_once (st : Store) :
  match requirements_list st with
  | NoSessionsFound => folders st = ∅
  | SessionList rows offersActive =>
      folders st ≠ ∅
      ∧ NoDup (row_folder <$> rows)
      ∧ (∀ name, name ∈ row_folder <$> rows ↔ is_Some (folders st !! name))
      ∧ Sorted (flip String.le) (row_folder <$> rows)
      ∧ (∀ row, row ∈ rows →
           row_status row = status <$> read_metadata (row_folder row) st
           ∧ row_phase row = phase <$> read_metadata (row_folder row) st
           ∧ (row_active row = true
              ↔ getCurrentRequirement st = Some (row_folder row)))
      ∧ offersActive = Js.truthy (getCurrentRequirement st)
  end.
Proof.
  unfold requirements_list. case_bool_decide as Hlen.
  - apply map_to_list_empty_iff.
    destruct (map_to_list (folders st)); [done|discriminate Hlen].
  - rewrite list_row_folders. repeat split.
    + intros Hempty. rewrite Hempty, map_to_list_empty in Hlen. by apply Hlen.
    + rewrite reverse_Permutation, merge_sort_Permutation.
      apply NoDup_fst_map_to_list.
    + by apply sorted_folders_elem.
    + by apply sorted_folders_elem.
    + apply Sorted_reverse, Sorted_merge_sort. apply _.
    + apply list_elem_of_fmap in H as (name & -> & _). done.
    + apply list_elem_of_fmap in H as (name & -> & _). done.
    + apply list_elem_of_fmap in H as (name & -> & _). simpl.
      intros Hactive%bool_decide_eq_true. done.
    + apply list_elem_of_fmap in H as (name & -> & _). simpl.
      intros Hactive. by apply bool_decide_eq_true.
Qed.

Lemma end_stamped_metadata (now today cur : string) (action : EndAction.t)
    (st : Store) :
  getCurrentRequirement st = Some cur → cur ≠ "" →
  action ≠ EndAction.delete →
  read_metadata cur (requirements_end now today action st).2
  = ended_metadata now action <$> read_metadata cur st.
Proof.
  intros Hcur Hne Haction. unfold requirements_end.
  rewrite Hcur, (truthy_pointer cur Hne).
  cbn [negb from_option Datatypes.id].
  destruct action; [| |done]; cbn [snd];
    rewrite read_metadata_clear, read_metadata_set_index, end_update_metadata;
    by rewrite decide_True.
Qed.

(** X18: after [requirements-end] with [delete] the listing no longer
    shows the session; after [complete] or [incomplete] of a session
    that has a metadata file, the listing shows it with status
    [completed] or [incomplete], its phase unchanged, and without the
    active marker. *)
Theorem list_after_end (now today cur : string) (action : EndAction.t)
    (st : Store) :
  getCurrentRequirement st = Some cur → cur ≠ "" →
  let st' := (requirements_end now today action st).2 in
  match action with
  | EndAction.delete =>
      ∀ rows offersActive,
        requirements_list st' = SessionList rows offersActive →
        cur ∉ row_folder <$> rows
  | _ =>
      ∀ m, read_metadata cur st = Some m →
        ∃ rows,
          requirements_list st' = SessionList rows false
          ∧ {| row_folder := cur;
               row_status :=
                 Some match action with
                      | EndAction.complete => Status.completed
                      | _ => Status.incomplete
                      end;
               row_phase := Some (phase m);
               row_started :=
                 if String.eqb (started m) "" then None else Some (started m);
               row_active := false |} ∈ rows
  end.
Proof.
  intros Hcur Hne st'.
  assert (getCurrentRequirement st' = None) as Hptr.
  { subst st'. unfold requirements_end.
    rewrite Hcur, (truthy_pointer cur Hne). cbn [negb].
    by destruct action; simpl; repeat case_match. }
  assert (action ≠ EndAction.delete →
          ∀ m, read_metadata cur st = Some m →
               ∃ rows,
                 requirements_list st' = SessionList rows false
                 ∧ list_row None st' cur ∈ rows
                 ∧ read_metadata cur st' = Some (ended_metadata now action m))
    as Hended.
  { intros Haction m Hm.
    pose proof (end_stamped_metadata now today cur action st Hcur Hne Haction)
      as Hm'.
    fold st' in Hm'. rewrite Hm in Hm'. simpl in Hm'.
    destruct (folder_of_metadata _ _ _ Hm') as [f Hf].
    unfold requirements_list. rewrite Hptr.
    case_bool_decide as Hlen.
    { apply nil_length_inv, fmap_nil_inv, map_to_list_empty_iff in Hlen.
      by rewrite Hlen in Hf. }
    eexists. split; [done|]. split; [|done].
    apply list_elem_of_fmap. exists cur. split; [done|].
    apply sorted_folders_elem. eauto. }
  destruct action.
  - intros m Hm. destruct (Hended ltac:(done) m Hm) as (rows & Hlist & Hin & Hm').
    exists rows. split; [done|].
    unfold list_row in Hin. by rewrite Hm' in Hin.
  - intros m Hm. destruct (Hended ltac:(done) m Hm) as (rows & Hlist & Hin & Hm').
    exists rows. split; [done|].
    unfold list_row in Hin. by rewrite Hm' in Hin.
  - intros rows offersActive Hlist Hin.
    unfold requirements_list in Hlist.
    case_bool_decide; [discriminate Hlist|]. injection Hlist as <- _.
    rewrite list_row_folders in Hin.
    apply sorted_folders_elem in Hin as [f Hf].
    subst st'. unfold requirements_end in Hf.
    rewrite Hcur, (truthy_pointer cur Hne) in Hf. simpl in Hf.
    by rewrite lookup_delete_eq in Hf.
Qed.

Lemma list_after_end_witness :
  ∃ rows,
    requirements_list
      (requirements_end "2025-07-14T10:00:00.000Z" "7/14/2025"
         EndAction.incomplete dark_mode_store).2
    = SessionList rows false
    ∧ {| row_folder := "2025-07-14-0905-add-dark-mode";
         row_status := Some Status.incomplete;
         row_phase := Some Phase.discovery;
         row_started := Some "2025-07-14T09:05:33.120Z";
         row_active := false |} ∈ rows.
Proof.
  refine (list_after_end "2025-07-14T10:00:00.000Z" "7/14/2025"
            "2025-07-14-0905-add-dark-mode" EndAction.incomplete
            dark_mode_store _ _
            (initial_metadata "2025-07-14T09:05:33.120Z"
               "2025-07-14-0905-add-dark-mode" DEFAULT_SETTINGS) _).
  - vm_compute; reflexivity.
  - apply String.eqb_neq. reflexivity.
  - vm_compute; reflexivity.
Defined.

(** ** One active session at a time *)

Lemma advance_all_keeps_pointer (inputs : list (string * option ElicitResult))
    (st : Store) :
  getCurrentRequirement (advance_all inputs st) = getCurrentRequirement st.
Proof.
  induction inputs as [|input inputs IH] using rev_ind; [done|].
  rewrite advance_all_snoc. unfold advance, getCurrentRequirement in *.
  destruct (status_keeps_registry input.1 input.2 (advance_all inputs st))
    as (-> & _ & _).
  exact IH.
Qed.

(** X19: once a session has been started, a further
    [requirements-start] is refused, with nothing written, however many
    [requirements-status] calls were made in between; after
    [requirements-end] a start goes through again. *)
Theorem one_session_at_a_time (now request : string) (st : Store)
    (inputs : list (string * option ElicitResult))
    (now' request' now'' today : string) (action : EndAction.t) :
  Js.truthy (getCurrentRequirement st) = false →
  let folderName := createTimestampFolder now request in
  let st1 := advance_all inputs (requirements_start now request st).2 in
  let st2 := (requirements_end now'' today action st1).2 in
  requirements_start now' request' st1 = (SessionAlreadyActive folderName, st1)
  ∧ (requirements_start now' request' st2).1
    = Started (createTimestampFolder now' request') (Some (loadSettings st2)).
Proof.
  intros Hfalsy folderName st1 st2. split.
  - destruct (start_folder now request st Hfalsy) as (_ & Hcur & _).
    fold folderName in Hcur.
    assert (getCurrentRequirement st1 = Some folderName) as Hcur1.
    { subst st1. by rewrite advance_all_keeps_pointer. }
    pose proof (truthy_pointer _ (folder_name_not_empty now request))
      as Htruthy.
    fold folderName in Htruthy.
    unfold requirements_start. by rewrite Hcur1, Htruthy.
  - pose proof (end_clears_pointer now'' today action st1) as Hptr.
    fold st2 in Hptr.
    by destruct (start_folder now' request' st2 Hptr) as (-> & _).
Qed.

Lemma one_session_at_a_time_witness :
  requirements_start "2025-07-14T09:20:00.000Z" "Export to PDF"
    (advance_all [("2025-07-14T09:06:00.000Z", accept_yes)]
       (requirements_start "2025-07-14T09:05:33.120Z" "Add dark mode"
          empty_store).2)
  = (SessionAlreadyActive "2025-07-14-0905-add-dark-mode",
     advance_all [("2025-07-14T09:06:00.000Z", accept_yes)]
       (requirements_start "2025-07-14T09:05:33.120Z" "Add dark mode"
          empty_store).2).
Proof.
  apply (one_session_at_a_time
           "2025-07-14T09:05:33.120Z" "Add dark mode" empty_store
           [("2025-07-14T09:06:00.000Z", accept_yes)]
           "2025-07-14T09:20:00.000Z" "Export to PDF"
           "2025-07-14T09:30:00.000Z" "7/14/2025" EndAction.complete).
  reflexivity.
Defined.
